(** * gogpt: a question/answer command-line client

    A shallow embedding of [main.go]: the command-line entry point [main],
    the completion client [getAnswer] and the persistence step [storeQA],
    together with the small part of their collaborators (the [flag], [os],
    [log], [net/http], [encoding/json] and [bolt] packages) that the program
    observes.  The two earlier versions of the program follow in the modules
    [Part001] and [Part000].

    A Go [string] is a sequence of bytes: Rocq's [string].  Everything the
    program does to the outside world is recorded as an [Event] in a trace;
    everything the outside world answers is read from an [Env].  A function
    that talks to the world is a state transformer on [World] that returns,
    exits the process or panics. *)

From Stdlib Require Import QArith.
From stdpp Require Import gmap strings list fin_maps.

Local Open Scope Z_scope.

(** ** Go values: errors and results *)

(** A Go [error] value.  The only thing the program ever asks of an error,
    besides its text ([%v]), is [os.IsNotExist]. *)
Inductive ErrKind := ErrNotExist | ErrOther.

Record error := mkError { err_kind : ErrKind; Error_ : string }.

Definition os_IsNotExist (err : option error) : bool :=
  match err with
  | Some (mkError ErrNotExist _) => true
  | _ => false
  end.

Definition errors_New (msg : string) : error := mkError ErrOther msg.

(** A Go call returning [(T, error)]. *)
Inductive result (T : Type) :=
| Ok (v : T)
| Err (e : error).
Arguments Ok {T} v.
Arguments Err {T} e.

(** ** [strings.TrimSpace]

    [strings.TrimSpace] removes the leading and the trailing runes for which
    [unicode.IsSpace] holds.  On the bytes of the string that is: strip, from
    the front and then from the back, every occurrence of the UTF-8 encoding
    of such a rune (a byte sequence that is not valid UTF-8 decodes to
    U+FFFD, which is not a space). *)

Definition bytes (l : list nat) : string :=
  String.string_of_list_ascii (Ascii.ascii_of_nat <$> l).

(** U+0009..U+000D, U+0020, U+0085, U+00A0, U+1680, U+2000..U+200A, U+2028,
    U+2029, U+202F, U+205F, U+3000. *)
Definition space_runes : list string :=
  bytes <$>
    [ [9%nat]; [10%nat]; [11%nat]; [12%nat]; [13%nat]; [32%nat];
      [194; 133]%nat; [194; 160]%nat; [225; 154; 128]%nat;
      [226; 128; 128]%nat; [226; 128; 129]%nat; [226; 128; 130]%nat;
      [226; 128; 131]%nat; [226; 128; 132]%nat; [226; 128; 133]%nat;
      [226; 128; 134]%nat; [226; 128; 135]%nat; [226; 128; 136]%nat;
      [226; 128; 137]%nat; [226; 128; 138]%nat; [226; 128; 168]%nat;
      [226; 128; 169]%nat; [226; 128; 175]%nat; [226; 129; 159]%nat;
      [227; 128; 128]%nat ].

Fixpoint strip_prefix (p s : string) : option string :=
  match p, s with
  | EmptyString, _ => Some s
  | String a p', String b s' =>
      if Ascii.eqb a b then strip_prefix p' s' else None
  | String _ _, EmptyString => None
  end.

(** The rest of [s] after its first rune, when that rune is one of [runes]. *)
Fixpoint strip_rune (runes : list string) (s : string) : option string :=
  match runes with
  | [] => None
  | r :: runes' =>
      match strip_prefix r s with
      | Some rest => Some rest
      | None => strip_rune runes' s
      end
  end.

Fixpoint trim_left (runes : list string) (fuel : nat) (s : string) : string :=
  match fuel with
  | O => s
  | S fuel' =>
      match strip_rune runes s with
      | Some rest => trim_left runes fuel' rest
      | None => s
      end
  end.

Definition TrimLeftSpace (s : string) : string :=
  trim_left space_runes (String.length s) s.

Definition TrimRightSpace (s : string) : string :=
  String.rev
    (trim_left (String.rev <$> space_runes) (String.length s) (String.rev s)).

Definition TrimSpace (s : string) : string :=
  TrimRightSpace (TrimLeftSpace s).

Definition nl : string := bytes [10%nat].
Definition tab : string := bytes [9%nat].
Definition dq : string := bytes [34%nat].


(** ** Constants and data types of [main.go] *)

Definition bucketName : string := "questions_and_answers".
Definition apiKeyFile : string := "openai_api_key.txt".
Definition openAIURL : string := "https://api.openai.com/v1/chat/completions".
Definition modelID : string := "gpt-3.5-turbo".
Definition defaultTemperature : Q := 7 # 10.

Record QA := mkQA { Question : string; Answer : string }.

Record Message := mkMessage { Role : string; Content : string }.

Record ChatCompletionRequest := mkChatCompletionRequest {
  Model : string;
  Messages : list Message;
  Temperature : Q
}.

Record Choice := mkChoice { Message_ : Message; FinishReason : string }.

Record ChatCompletionResponse := mkChatCompletionResponse {
  ID : string;
  Object : string;
  Model_ : string;
  Choices : list Choice
}.

Record Config := mkConfig { APIKey : string }.

(** ** The outside world *)

(** [net/http]: a request as [getAnswer] builds it, a response as it reads
    it.  [Body] is what [ioutil.ReadAll(resp.Body)] yields. *)
Record Request := mkRequest {
  Method : string;
  URL : string;
  Header : list (string * string);
  ReqBody : string
}.

Record Response := mkResponse {
  StatusCode : Z;
  Status : string;
  Body : result string
}.

Definition http_StatusOK : Z := 200.

(** The command line after [flag.Parse]: for every flag, the value it was
    set to, or [None] when it was not given.  (A command line [flag.Parse]
    rejects ends the process inside [flag.Parse].) *)
Record CommandLine := mkCommandLine {
  arg_help : option bool;
  arg_question : option string;
  arg_example_prompt : option string;
  arg_example_response : option string;
  arg_file_to_analyze : option string;
  arg_debug : option bool
}.

(** What the operating system, the network and the disk answer. *)
Record Env := mkEnv {
  commandLine : CommandLine;
  UserHomeDir : result string;
  MkdirAll : string -> option error;
  Stat : string -> option error;
  ReadFile : string -> string * option error;
  Do : Request -> result Response;
  Open : string -> option error;
  (** the outcome of committing the n-th write transaction *)
  Commit : nat -> option error
}.

(** Pure library functions the program calls and whose values it only passes
    on.  [json.Marshal] cannot fail on the two struct types it is given here
    (strings and a finite number only), so the encoders are total. *)
Record Lib := mkLib {
  filepath_Join : string -> string -> string;
  encode_ChatCompletionRequest : ChatCompletionRequest -> string;
  encode_QA : QA -> string;
  (** [json.Unmarshal(data, &v)]: the value left in [v], and the error *)
  decode_Config : string -> Config -> Config * option error;
  decode_ChatCompletionResponse : string -> result ChatCompletionResponse
}.

(** A bolt file: buckets by name, each a map from key to value. *)
Abbreviation Bucket := (gmap string string).
Abbreviation Store := (gmap string (gmap string string)).

Inductive StoreOp :=
| OpCreateBucket (name : string)
| OpPut (bucket key value : string).

Inductive Stream := Stdout | Stderr | Discard.

Record Logger := log_New { log_out : Stream; log_prefix : string }.

(** What the program does, in order.  Log lines are recorded without their
    time stamp. *)
Inductive Event :=
| EvPrintDefaults
| EvPrint (text : string)
| EvLog (l : Logger) (line : string)
| EvMkdirAll (path : string)
| EvStat (path : string)
| EvReadFile (path : string)
| EvOpen (path : string)
| EvCommit (path : string) (ops : list StoreOp)
| EvClose (path : string)
| EvDo (req : Request).

Record World := mkWorld {
  w_files : gmap string (gmap string (gmap string string));
  w_txs : nat;
  w_trace : list Event
}.

Definition init_world (files : gmap string Store) : World :=
  mkWorld files 0%nat [].

(** ** Control: return, [os.Exit], panic *)

Inductive Outcome (A : Type) :=
| Ret (a : A)
| Exit (code : Z)
| Panic (msg : string).
Arguments Ret {A} a.
Arguments Exit {A} code.
Arguments Panic {A} msg.

Definition St (S A : Type) : Type := S -> Outcome A * S.

Definition ret {S A} (a : A) : St S A := fun s => (Ret a, s).

Definition bind {S A B} (m : St S A) (k : A -> St S B) : St S B :=
  fun s =>
    match m s with
    | (Ret a, s') => k a s'
    | (Exit code, s') => (Exit code, s')
    | (Panic msg, s') => (Panic msg, s')
    end.

Notation "x <- m ;; k" := (bind m (fun x => k))
  (at level 100, m at next level, right associativity).
Notation "m ;; k" := (bind m (fun _ => k))
  (at level 100, right associativity).
Notation "'try' x <- r 'in' k" :=
  (match r with Err err => ret (Err err) | Ok x => k end)
  (at level 100, x name, r at next level, right associativity).

Definition when {S} (c : bool) (m : St S unit) : St S unit :=
  if c then m else ret tt.

Definition panic {S A} (msg : string) : St S A := fun s => (Panic msg, s).

(** [defer f()] around the rest of a function body: [f] runs when the body
    returns or panics, not when the process exits. *)
Definition defer {S A} (f : St S unit) (body : St S A) : St S A :=
  fun s =>
    match body s with
    | (Ret a, s') => (f ;; ret a) s'
    | (Exit code, s') => (Exit code, s')
    | (Panic msg, s') => (f ;; panic msg) s'
    end.

Abbreviation M := (St World).

Definition emit (e : Event) : M unit :=
  fun w => (Ret tt, mkWorld (w_files w) (w_txs w) (w_trace w ++ [e])).

Definition os_Exit {A} (code : Z) : M A := fun w => (Exit code, w).

(** The exit status of the process, from the outcome of [main]. *)
Definition exit_status (o : Outcome unit) : Z :=
  match o with
  | Ret _ => 0
  | Exit code => code
  | Panic _ => 2
  end.

(** ** [log], [fmt], [flag] *)

Definition log_std : Logger := log_New Stderr "".

Definition Logger_Printf (l : Logger) (line : string) : M unit :=
  emit (EvLog l line).

Definition log_Fatalf {A} (line : string) : M A :=
  emit (EvLog log_std line) ;; os_Exit 1.

Definition fmt_Printf (text : string) : M unit := emit (EvPrint text).

Definition fmt_Errorf (text : string) : error := errors_New text.

Definition flag_PrintDefaults : M unit := emit EvPrintDefaults.

Definition is_set {A} (o : option A) : nat :=
  match o with Some _ => 1%nat | None => 0%nat end.

Definition flag_NFlag (c : CommandLine) : nat :=
  (is_set (arg_help c) + is_set (arg_question c)
   + is_set (arg_example_prompt c) + is_set (arg_example_response c)
   + is_set (arg_file_to_analyze c) + is_set (arg_debug c))%nat.

(** ** [bolt]

    A file holds buckets, a bucket holds keys with their values, one value
    per key.  The program makes no nested bucket, and none is modelled. *)

Definition ErrBucketNameRequired : error := errors_New "bucket name required".
Definition ErrKeyRequired : error := errors_New "key required".
Definition ErrKeyTooLarge : error := errors_New "key too large".
Definition ErrValueTooLarge : error := errors_New "value too large".

Definition MaxKeySize : Z := 32768.
Definition MaxValueSize : Z := 2 ^ 31 - 2.

Definition len (s : string) : Z := Z.of_nat (String.length s).

(** A write transaction: its view of the file, and what it did so far. *)
Record Tx := mkTx { tx_root : Store; tx_ops : list StoreOp }.

Abbreviation TxM := (St Tx).

(** [*bolt.Bucket]: [None] is the nil pointer. *)
Definition BucketRef : Type := option string.

Definition Tx_CreateBucketIfNotExists (name : string) : TxM (result BucketRef) :=
  fun tx =>
    if String.eqb name "" then (Ret (Err ErrBucketNameRequired), tx)
    else
      match tx_root tx !! name with
      | Some _ => (Ret (Ok (Some name)), tx)
      | None =>
          (Ret (Ok (Some name)),
           mkTx (<[name := ∅]> (tx_root tx)) (tx_ops tx ++ [OpCreateBucket name]))
      end.

Definition Tx_Bucket (name : string) : TxM BucketRef :=
  fun tx =>
    match tx_root tx !! name with
    | Some _ => (Ret (Some name), tx)
    | None => (Ret None, tx)
    end.

Definition Bucket_Put (b : BucketRef) (key value : string) : TxM (option error) :=
  match b with
  | None => panic "runtime error: invalid memory address or nil pointer dereference"
  | Some name =>
      if len key =? 0 then ret (Some ErrKeyRequired)
      else if len key >? MaxKeySize then ret (Some ErrKeyTooLarge)
      else if len value >? MaxValueSize then ret (Some ErrValueTooLarge)
      else
        fun tx =>
          (Ret None,
           mkTx (<[name := <[key := value]> (default ∅ (tx_root tx !! name))]>
                   (tx_root tx))
                (tx_ops tx ++ [OpPut name key value]))
  end.

(** [*bolt.DB]: the handle of an open file, by its path. *)
Definition DB : Type := string.

(** ** The program *)

Section Program.

Variable lib : Lib.
Variable env : Env.

(** *** Calls into the environment *)

Definition os_UserHomeDir : M (result string) := ret (UserHomeDir env).

Definition os_MkdirAll (path : string) : M (option error) :=
  emit (EvMkdirAll path) ;; ret (MkdirAll env path).

Definition os_Stat (path : string) : M (option error) :=
  emit (EvStat path) ;; ret (Stat env path).

Definition ioutil_ReadFile (path : string) : M (string * option error) :=
  emit (EvReadFile path) ;; ret (ReadFile env path).

Definition ioutil_ReadAll (body : result string) : result string := body.

Definition json_Marshal_ChatCompletionRequest (v : ChatCompletionRequest)
  : result string := Ok (encode_ChatCompletionRequest lib v).

Definition json_Marshal_QA (v : QA) : result string := Ok (encode_QA lib v).

(** [http.NewRequest] fails on a malformed method or URL only; the program
    passes it the constants ["POST"] and [openAIURL]. *)
Definition http_NewRequest (method url body : string) : result Request :=
  Ok (mkRequest method url [] body).

Definition Header_Add (req : Request) (key value : string) : Request :=
  mkRequest (Method req) (URL req) (Header req ++ [(key, value)]) (ReqBody req).

Definition Client_Do (req : Request) : M (result Response) :=
  emit (EvDo req) ;; ret (Do env req).

(** [bolt.Open(path, 0600, nil)] creates the file when it is absent. *)
Definition bolt_Open (path : string) : M (result DB) :=
  emit (EvOpen path) ;;
  match Open env path with
  | Some err => ret (Err err)
  | None =>
      fun w =>
        (Ret (Ok path),
         match w_files w !! path with
         | Some _ => w
         | None => mkWorld (<[path := ∅]> (w_files w)) (w_txs w) (w_trace w)
         end)
  end.

Definition DB_Close (db : DB) : M unit := emit (EvClose db).

(** [db.Update(fn)]: run [fn] in a write transaction; roll back when [fn]
    returns an error or panics, or when the commit fails. *)
Definition DB_Update (db : DB) (fn : TxM (option error)) : M (option error) :=
  fun w =>
    let rolled_back := mkWorld (w_files w) (S (w_txs w)) (w_trace w) in
    match fn (mkTx (default ∅ (w_files w !! db)) []) with
    | (Ret (Some err), _) => (Ret (Some err), rolled_back)
    | (Ret None, tx) =>
        match Commit env (w_txs w) with
        | Some err => (Ret (Some err), rolled_back)
        | None =>
            (Ret None,
             mkWorld (<[db := tx_root tx]> (w_files w)) (S (w_txs w))
                     (w_trace w ++ [EvCommit db (tx_ops tx)]))
        end
    | (Exit code, _) => (Exit code, rolled_back)
    | (Panic msg, _) => (Panic msg, rolled_back)
    end.

(** *** The flags *)

Definition showHelp : bool := default false (arg_help (commandLine env)).
Definition question : string := default "" (arg_question (commandLine env)).
Definition example_prompt : string :=
  default "" (arg_example_prompt (commandLine env)).
Definition example_response : string :=
  default "" (arg_example_response (commandLine env)).
Definition file_to_analyze : string :=
  default "" (arg_file_to_analyze (commandLine env)).
Definition debugMode : bool := default false (arg_debug (commandLine env)).

Definition logError : Logger := log_New Stderr ("ERROR" +:+ tab).
Definition logInfo : Logger := log_New Stdout ("INFO" +:+ tab).
Definition logDebug : Logger :=
  if debugMode then log_New Stdout ("DEBUG" +:+ tab) else log_New Discard "".

(** *** [getHomeDir], [getConfigDir] *)

Definition getHomeDir : M string :=
  r <- os_UserHomeDir ;;
  match r with
  | Err err => log_Fatalf ("Error getting home directory: " +:+ Error_ err)
  | Ok home => ret home
  end.

Definition getConfigDir : M string :=
  homeDir <- getHomeDir ;;
  let configDir := filepath_Join lib homeDir ".gogpt" in
  err <- os_MkdirAll configDir ;;
  match err with
  | Some err => log_Fatalf ("Error creating config directory: " +:+ Error_ err)
  | None => ret configDir
  end.

(** *** [getAnswer]

    [defer resp.Body.Close()] has no effect the program could observe and
    is left out. *)

Definition systemPrompt : string :=
  "You are a helpful assistant and you give answers in a list. People generally ask about text and books.".

Definition getAnswer
  (apiKey question example_prompt example_response text_to_analyze : string)
  : M (result string) :=
  let chatReq :=
    {| Model := modelID;
       Messages :=
         [ mkMessage "system" systemPrompt;
           mkMessage "user" example_prompt;
           mkMessage "assistant" example_response;
           mkMessage "user"
             ("Now, about this following text, " +:+ question +:+ ": "
              +:+ text_to_analyze) ];
       Temperature := defaultTemperature |} in
  try reqBody <- json_Marshal_ChatCompletionRequest chatReq in
  try req <- http_NewRequest "POST" openAIURL reqBody in
  let req := Header_Add req "Content-Type" "application/json" in
  let req := Header_Add req "Authorization" ("Bearer " +:+ apiKey) in
  r <- Client_Do req ;;
  try resp <- r in
  if negb (StatusCode resp =? http_StatusOK) then
    ret (Err (fmt_Errorf
                ("OpenAI API request failed with status: " +:+ Status resp)))
  else
    try respBody <- ioutil_ReadAll (Body resp) in
    try chatResp <- decode_ChatCompletionResponse lib respBody in
    match Choices chatResp !! 0%nat with
    | None => panic "runtime error: index out of range [0] with length 0"
    | Some choice => ret (Ok (TrimSpace (Content (Message_ choice))))
    end.

(** *** [storeQA] *)

Definition storeQA (db : DB) (question answer : string) : M (option error) :=
  DB_Update db
    (b <- Tx_Bucket bucketName ;;
     let qa := mkQA question answer in
     match json_Marshal_QA qa with
     | Err err => ret (Some err)
     | Ok data => Bucket_Put b question data
     end).

(** *** [main] *)

Definition main : M unit :=
  when ((flag_NFlag (commandLine env) =? 0)%nat || showHelp)
    (flag_PrintDefaults ;; os_Exit 0) ;;
  configDir <- getConfigDir ;;
  let configFile := configDir +:+ "/config.json" in
  err <- os_Stat configFile ;;
  when (os_IsNotExist err)
    (Logger_Printf logError
       ("Config file " +:+ configFile +:+ " does not exist") ;;
     os_Exit 1) ;;
  r <- ioutil_ReadFile configFile ;;
  let file := r.1 in
  match r.2 with
  | Some err =>
      Logger_Printf logError ("Error reading API key file: " +:+ Error_ err)
  | None => ret tt
  end ;;
  let (config, err) := decode_Config lib file (mkConfig "") in
  match err with
  | Some err =>
      Logger_Printf logError
        ("Error unmarshalling API key file: " +:+ Error_ err)
  | None => ret tt
  end ;;
  text_to_analyze <-
    (if negb (String.eqb file_to_analyze "") then
       err <- os_Stat file_to_analyze ;;
       when (os_IsNotExist err)
         (Logger_Printf logError
            ("File " +:+ file_to_analyze +:+ " does not exist") ;;
          os_Exit 1) ;;
       r <- ioutil_ReadFile file_to_analyze ;;
       match r.2 with
       | Some err =>
           Logger_Printf logError ("Error reading file: " +:+ Error_ err) ;;
           os_Exit 1
       | None => ret r.1
       end
     else ret "") ;;
  let apiKey := APIKey config in
  configDir <- getConfigDir ;;
  let dbFile := configDir +:+ "/qa.db" in
  r <- bolt_Open dbFile ;;
  match r with
  | Err err => log_Fatalf ("Error opening BoltDB: " +:+ Error_ err)
  | Ok db =>
      defer (DB_Close db)
        (err <- DB_Update db
                  (r <- Tx_CreateBucketIfNotExists bucketName ;;
                   match r with
                   | Err err => ret (Some err)
                   | Ok _ => ret None
                   end) ;;
         match err with
         | Some err => log_Fatalf ("Error creating bucket: " +:+ Error_ err)
         | None => ret tt
         end ;;
         r <- getAnswer apiKey question example_prompt example_response
                text_to_analyze ;;
         match r with
         | Err err => log_Fatalf ("Error getting answer: " +:+ Error_ err)
         | Ok answer =>
             err <- storeQA db question answer ;;
             match err with
             | Some err =>
                 log_Fatalf
                   ("Error storing question and answer: " +:+ Error_ err)
             | None => fmt_Printf ("Answer: " +:+ answer +:+ nl)
             end
         end)
  end.

End Program.

(** ** The two earlier versions of the program

    The repository holds two earlier versions of [main.go].  [storeQA],
    [getHomeDir] and [getConfigDir] are the same text in every version in
    which they occur; what differs is modelled here. *)

(** *** The version with the flags [-help], [-question] and [-debug] only *)

Module Part001.

Section Program.

Variable lib : Lib.
Variable env : Env.

(** This version defines three flags: the other fields of the command line
    are not looked at. *)
Definition flag_NFlag (c : CommandLine) : nat :=
  (is_set (arg_help c) + is_set (arg_question c) + is_set (arg_debug c))%nat.

Definition getAnswer (apiKey question : string) : M (result string) :=
  let chatReq :=
    {| Model := modelID;
       Messages := [ mkMessage "user" question ];
       Temperature := defaultTemperature |} in
  try reqBody <- json_Marshal_ChatCompletionRequest lib chatReq in
  try req <- http_NewRequest "POST" openAIURL reqBody in
  let req := Header_Add req "Content-Type" "application/json" in
  let req := Header_Add req "Authorization" ("Bearer " +:+ apiKey) in
  r <- Client_Do env req ;;
  try resp <- r in
  if negb (StatusCode resp =? http_StatusOK) then
    ret (Err (fmt_Errorf
                ("OpenAI API request failed with status: " +:+ Status resp)))
  else
    try respBody <- ioutil_ReadAll (Body resp) in
    try chatResp <- decode_ChatCompletionResponse lib respBody in
    match Choices chatResp !! 0%nat with
    | None => panic "runtime error: index out of range [0] with length 0"
    | Some choice => ret (Ok (TrimSpace (Content (Message_ choice))))
    end.

Definition main : M unit :=
  when ((flag_NFlag (commandLine env) =? 0)%nat || showHelp env)
    (flag_PrintDefaults ;; os_Exit 0) ;;
  configDir <- getConfigDir lib env ;;
  let configFile := configDir +:+ "/config.json" in
  err <- os_Stat env configFile ;;
  when (os_IsNotExist err)
    (Logger_Printf logError
       ("Config file " +:+ configFile +:+ " does not exist") ;;
     os_Exit 1) ;;
  r <- ioutil_ReadFile env configFile ;;
  let file := r.1 in
  match r.2 with
  | Some err =>
      Logger_Printf logError ("Error reading API key file: " +:+ Error_ err)
  | None => ret tt
  end ;;
  let (config, err) := decode_Config lib file (mkConfig "") in
  match err with
  | Some err =>
      Logger_Printf logError
        ("Error unmarshalling API key file: " +:+ Error_ err)
  | None => ret tt
  end ;;
  let apiKey := APIKey config in
  configDir <- getConfigDir lib env ;;
  let dbFile := configDir +:+ "/qa.db" in
  r <- bolt_Open env dbFile ;;
  match r with
  | Err err => log_Fatalf ("Error opening BoltDB: " +:+ Error_ err)
  | Ok db =>
      defer (DB_Close db)
        (err <- DB_Update env db
                  (r <- Tx_CreateBucketIfNotExists bucketName ;;
                   match r with
                   | Err err => ret (Some err)
                   | Ok _ => ret None
                   end) ;;
         match err with
         | Some err => log_Fatalf ("Error creating bucket: " +:+ Error_ err)
         | None => ret tt
         end ;;
         r <- getAnswer apiKey (question env) ;;
         match r with
         | Err err => log_Fatalf ("Error getting answer: " +:+ Error_ err)
         | Ok answer =>
             err <- storeQA lib env db (question env) answer ;;
             match err with
             | Some err =>
                 log_Fatalf
                   ("Error storing question and answer: " +:+ Error_ err)
             | None => fmt_Printf ("Answer: " +:+ answer +:+ nl)
             end
         end)
  end.

End Program.

End Part001.

(** *** The first version

    The question is the command line, the key is the content of a file in
    the working directory, and the endpoint is the completion API. *)

Module Part000.

Definition openAIURL : string :=
  "https://api.openai.com/v1/engines/davinci-codex/completions".
Definition modelEndpoint : string := "davinci-codex".

Record CompletionRequest := mkCompletionRequest {
  Prompt : string;
  MaxTokens : Z;
  Temperature : Q;
  TopP : Q;
  FrequencyPenalty : Q;
  PresencePenalty : Q
}.

Record Choice := mkChoice { Text : string; Index : Z; FinishReason : string }.

Record CompletionResponse := mkCompletionResponse {
  ID : string;
  Object : string;
  Created : Z;
  Model : string;
  Choices : list Choice
}.

(** [encoding/json] on the types of this version. *)
Record Codec := mkCodec {
  encode_CompletionRequest : CompletionRequest -> string;
  decode_CompletionResponse : string -> result CompletionResponse
}.

Section Program.

Variable lib : Lib.
Variable codec : Codec.
Variable env : Env.

(** [os.Args], the program name first. *)
Variable Args : list string.

Definition json_Marshal_CompletionRequest (v : CompletionRequest)
  : result string := Ok (encode_CompletionRequest codec v).

Definition fmt_Println (text : string) : M unit := emit (EvPrint (text +:+ nl)).

Definition getAnswer (apiKey question : string) : M (result string) :=
  let prompt := "Please answer the following question: " +:+ question in
  let compReq :=
    {| Prompt := prompt;
       MaxTokens := 50;
       Temperature := 5 # 10;
       TopP := 1;
       FrequencyPenalty := 0;
       PresencePenalty := 0 |} in
  try reqBody <- json_Marshal_CompletionRequest compReq in
  try req <- http_NewRequest "POST"
               (openAIURL +:+ "/" +:+ modelEndpoint +:+ "/completions")
               reqBody in
  let req := Header_Add req "Content-Type" "application/json" in
  let req := Header_Add req "Content-Type" "application/json" in
  let req := Header_Add req "Authorization" ("Bearer " +:+ apiKey) in
  r <- Client_Do env req ;;
  try resp <- r in
  if negb (StatusCode resp =? http_StatusOK) then
    ret (Err (fmt_Errorf
                ("OpenAI API request failed with status: " +:+ Status resp)))
  else
    try respBody <- ioutil_ReadAll (Body resp) in
    try compResp <- decode_CompletionResponse codec respBody in
    match Choices compResp !! 0%nat with
    | None => panic "runtime error: index out of range [0] with length 0"
    | Some choice => ret (Ok (TrimSpace (Text choice)))
    end.

Definition main : M unit :=
  if (length Args <? 2)%nat then
    fmt_Println ("Usage: go run main.go " +:+ dq +:+ "Your question" +:+ dq)
  else
    let question := String.concat " " (tail Args) in
    r <- ioutil_ReadFile env apiKeyFile ;;
    let apiKey := r.1 in
    match r.2 with
    | Some err => log_Fatalf ("Error reading API key file: " +:+ Error_ err)
    | None => ret tt
    end ;;
    r <- bolt_Open env "qa.db" ;;
    match r with
    | Err err => log_Fatalf ("Error opening BoltDB: " +:+ Error_ err)
    | Ok db =>
        defer (DB_Close db)
          (err <- DB_Update env db
                    (r <- Tx_CreateBucketIfNotExists bucketName ;;
                     match r with
                     | Err err => ret (Some err)
                     | Ok _ => ret None
                     end) ;;
           match err with
           | Some err =>
               log_Fatalf ("Error creating bucket: " +:+ Error_ err)
           | None => ret tt
           end ;;
           r <- getAnswer apiKey question ;;
           match r with
           | Err err => log_Fatalf ("Error getting answer: " +:+ Error_ err)
           | Ok answer =>
               err <- storeQA lib env db question answer ;;
               match err with
               | Some err =>
                   log_Fatalf
                     ("Error storing question and answer: " +:+ Error_ err)
               | None => fmt_Printf ("Answer: " +:+ answer +:+ nl)
               end
           end)
    end.

End Program.

End Part000.

(** ** Observations on a run *)

Definition run (lib : Lib) (env : Env) (files : gmap string Store)
  : Outcome unit * World :=
  main lib env (init_world files).

(** The HTTP requests sent, in order. *)
Definition requests (tr : list Event) : list Request :=
  omap (fun e => match e with EvDo req => Some req | _ => None end) tr.

Definition is_put (op : StoreOp) : bool :=
  match op with OpPut _ _ _ => true | OpCreateBucket _ => false end.

(** The records committed to a store, in order. *)
Definition puts (tr : list Event) : list StoreOp :=
  flat_map
    (fun e =>
       match e with
       | EvCommit _ ops => List.filter is_put ops
       | _ => []
       end) tr.

Definition is_store_event (e : Event) : bool :=
  match e with
  | EvOpen _ | EvCommit _ _ | EvClose _ => true
  | _ => false
  end.

Definition store_events (tr : list Event) : list Event :=
  List.filter is_store_event tr.

(** The events that precede the first HTTP request. *)
Fixpoint before_Do (tr : list Event) : list Event :=
  match tr with
  | [] => []
  | EvDo _ :: _ => []
  | e :: tr' => e :: before_Do tr'
  end.

(** What [CreateBucketIfNotExists bucketName] does to a file. *)
Definition bucket_creation (root : Store) : list StoreOp :=
  match root !! bucketName with
  | Some _ => []
  | None => [OpCreateBucket bucketName]
  end.

Definition ensure_bucket (root : Store) : Store :=
  match root !! bucketName with
  | Some _ => root
  | None => <[bucketName := ∅]> root
  end.

(** The record stored under [key] in the program's bucket of file [db]. *)
Definition stored (w : World) (db key : string) : option string :=
  root ← w_files w !! db; b ← root !! bucketName; b !! key.

Definition configFile (lib : Lib) (home : string) : string :=
  filepath_Join lib home ".gogpt" +:+ "/config.json".

Definition dbFile (lib : Lib) (home : string) : string :=
  filepath_Join lib home ".gogpt" +:+ "/qa.db".

(** The help gate at the head of [main]. *)
Definition help_gate (env : Env) : bool :=
  (flag_NFlag (commandLine env) =? 0)%nat || showHelp env.

(** The configuration file does not exist, wherever the home directory is. *)
Definition config_missing (lib : Lib) (env : Env) : Prop :=
  forall home, UserHomeDir env = Ok home ->
    os_IsNotExist (Stat env (configFile lib home)) = true.

(** The request [getAnswer] sends. *)
Definition completionRequest (lib : Lib)
  (apiKey question example_prompt example_response text_to_analyze : string)
  : Request :=
  {| Method := "POST";
     URL := openAIURL;
     Header := [("Content-Type", "application/json");
                ("Authorization", "Bearer " +:+ apiKey)];
     ReqBody :=
       encode_ChatCompletionRequest lib
         {| Model := modelID;
            Messages :=
              [ mkMessage "system" systemPrompt;
                mkMessage "user" example_prompt;
                mkMessage "assistant" example_response;
                mkMessage "user"
                  ("Now, about this following text, " +:+ question +:+ ": "
                   +:+ text_to_analyze) ];
            Temperature := defaultTemperature |} |}.

(** The endpoint answers [req] with status 200 and a body that decodes to
    the list [choices]. *)
Definition answers_choices (lib : Lib) (env : Env) (req : Request)
  (choices : list Choice) : Prop :=
  exists resp body chatResp,
    Do env req = Ok resp /\ StatusCode resp = http_StatusOK /\
    Body resp = Ok body /\
    decode_ChatCompletionResponse lib body = Ok chatResp /\
    Choices chatResp = choices.

(** *** The two phases of [main]

    [main] first gathers its inputs ([preamble]: help gate, configuration,
    text file), then opens the store ([session]) and, with the store open,
    talks to the endpoint and writes the record ([exchange]). *)

Section Phases.

Variable lib : Lib.
Variable env : Env.

Definition preamble : M (Config * string) :=
  when ((flag_NFlag (commandLine env) =? 0)%nat || showHelp env)
    (flag_PrintDefaults ;; os_Exit 0) ;;
  configDir <- getConfigDir lib env ;;
  let configFile := configDir +:+ "/config.json" in
  err <- os_Stat env configFile ;;
  when (os_IsNotExist err)
    (Logger_Printf logError
       ("Config file " +:+ configFile +:+ " does not exist") ;;
     os_Exit 1) ;;
  r <- ioutil_ReadFile env configFile ;;
  let file := r.1 in
  match r.2 with
  | Some err =>
      Logger_Printf logError ("Error reading API key file: " +:+ Error_ err)
  | None => ret tt
  end ;;
  let (config, err) := decode_Config lib file (mkConfig "") in
  match err with
  | Some err =>
      Logger_Printf logError
        ("Error unmarshalling API key file: " +:+ Error_ err)
  | None => ret tt
  end ;;
  text_to_analyze <-
    (if negb (String.eqb (file_to_analyze env) "") then
       err <- os_Stat env (file_to_analyze env) ;;
       when (os_IsNotExist err)
         (Logger_Printf logError
            ("File " +:+ file_to_analyze env +:+ " does not exist") ;;
          os_Exit 1) ;;
       r <- ioutil_ReadFile env (file_to_analyze env) ;;
       match r.2 with
       | Some err =>
           Logger_Printf logError ("Error reading file: " +:+ Error_ err) ;;
           os_Exit 1
       | None => ret r.1
       end
     else ret "") ;;
  ret (config, text_to_analyze).

(** The end of [main]: ask, store, print. *)
Definition exchange (config : Config) (text_to_analyze : string) (db : DB)
  : M unit :=
  r <- getAnswer lib env (APIKey config) (question env) (example_prompt env)
         (example_response env) text_to_analyze ;;
  match r with
  | Err err => log_Fatalf ("Error getting answer: " +:+ Error_ err)
  | Ok answer =>
      err <- storeQA lib env db (question env) answer ;;
      match err with
      | Some err =>
          log_Fatalf ("Error storing question and answer: " +:+ Error_ err)
      | None => fmt_Printf ("Answer: " +:+ answer +:+ nl)
      end
  end.

Definition session (config : Config) (text_to_analyze : string) : M unit :=
  configDir <- getConfigDir lib env ;;
  let dbFile := configDir +:+ "/qa.db" in
  r <- bolt_Open env dbFile ;;
  match r with
  | Err err => log_Fatalf ("Error opening BoltDB: " +:+ Error_ err)
  | Ok db =>
      defer (DB_Close db)
        (err <- DB_Update env db
                  (r <- Tx_CreateBucketIfNotExists bucketName ;;
                   match r with
                   | Err err => ret (Some err)
                   | Ok _ => ret None
                   end) ;;
         match err with
         | Some err => log_Fatalf ("Error creating bucket: " +:+ Error_ err)
         | None => ret tt
         end ;;
         exchange config text_to_analyze db)
  end.

End Phases.

(** ** Sample environments

    A stand-in for [encoding/json] and a family of environments, to run the
    program on concrete inputs.  The sample codec writes objects without
    escaping, and reads back exactly the two shapes the examples use: a
    configuration object with the one field [api_key], and a response with
    one choice (or the empty object, a response without choices). *)

Definition quoted (s : string) : string := dq +:+ s +:+ dq.

Definition sample_object (fields : list (string * string)) : string :=
  "{" +:+ String.concat "," ((fun kv => quoted kv.1 +:+ ":" +:+ kv.2) <$> fields)
  +:+ "}".

Definition strip_suffix (p s : string) : option string :=
  String.rev <$> strip_prefix (String.rev p) (String.rev s).

(** The text of [s] between [pre] and [post]. *)
Definition between (pre post s : string) : option string :=
  rest ← strip_prefix pre s; strip_suffix post rest.

Definition config_json (key : string) : string :=
  sample_object [("api_key", quoted key)].

Definition response_json (content : string) : string :=
  sample_object
    [("choices",
      "[" +:+
      sample_object
        [("message",
          sample_object [("role", quoted "assistant");
                         ("content", quoted content)])]
      +:+ "]")].

Definition unexpected_end : error :=
  errors_New "unexpected end of JSON input".

Definition sample_syntax_error (data : string) : error :=
  if String.eqb data "not json" then
    errors_New "invalid character 'o' in literal null (expecting 'u')"
  else errors_New "invalid character looking for beginning of value".

Definition sample_lib : Lib :=
  {| filepath_Join := fun dir name => dir +:+ "/" +:+ name;
     encode_ChatCompletionRequest := fun r =>
       sample_object
         [("model", quoted (Model r));
          ("messages",
           "[" +:+
           String.concat ","
             ((fun m =>
                 sample_object [("role", quoted (Role m));
                                ("content", quoted (Content m))])
              <$> Messages r)
           +:+ "]");
          ("temperature", "0.7")];
     encode_QA := fun qa =>
       sample_object [("question", quoted (Question qa));
                      ("answer", quoted (Answer qa))];
     decode_Config := fun data config =>
       if String.eqb data "" then (config, Some unexpected_end)
       else
         match between ("{" +:+ quoted "api_key" +:+ ":" +:+ dq)
                       (dq +:+ "}") data with
         | Some key => (mkConfig key, None)
         | None => (config, Some (sample_syntax_error data))
         end;
     decode_ChatCompletionResponse := fun data =>
       if String.eqb data "" then Err unexpected_end
       else if String.eqb data "{}" then
         Ok (mkChatCompletionResponse "" "" "" [])
       else
         match between
                 ("{" +:+ quoted "choices" +:+ ":[{" +:+ quoted "message"
                  +:+ ":{" +:+ quoted "role" +:+ ":" +:+ quoted "assistant"
                  +:+ "," +:+ quoted "content" +:+ ":" +:+ dq)
                 (dq +:+ "}}]}") data with
         | Some content =>
             Ok (mkChatCompletionResponse "" "" ""
                   [mkChoice (mkMessage "assistant" content) ""])
         | None => Err (sample_syntax_error data)
         end |}.

Definition ENOENT : error := mkError ErrNotExist "no such file or directory".

(** An environment with home directory [/home/u], in which every file but
    those of [missing] exists and holds [content], the endpoint answers
    every request with [answer], and the disk never fails. *)
Definition sample_env (args : CommandLine) (missing : list string)
  (content : string) (answer : result Response) : Env :=
  {| commandLine := args;
     UserHomeDir := Ok "/home/u";
     MkdirAll := fun _ => None;
     Stat := fun path =>
       if bool_decide (path ∈ missing) then Some ENOENT else None;
     ReadFile := fun path =>
       if bool_decide (path ∈ missing) then ("", Some ENOENT)
       else (content, None);
     Do := fun _ => answer;
     Open := fun _ => None;
     Commit := fun _ => None |}.

Definition no_flags : CommandLine := mkCommandLine None None None None None None.

Definition ask (q : string) : CommandLine :=
  mkCommandLine None (Some q) None None None None.

Definition debug_only : CommandLine :=
  mkCommandLine None None None None None (Some true).

Definition sample_config : string := "/home/u/.gogpt/config.json".
Definition sample_db : string := "/home/u/.gogpt/qa.db".

Definition ok_200 (body : string) : result Response :=
  Ok (mkResponse 200 "200 OK" (Ok body)).

Definition status_500 : result Response :=
  Ok (mkResponse 500 "500 Internal Server Error" (Ok "")).
(** *** Worlds after a write transaction *)

(** The world after a committed put of [data] under [key]. *)
Definition after_put (w : World) (db : DB) (root : Store) (b : Bucket)
  (key data : string) : World :=
  mkWorld (<[db := <[bucketName := <[key := data]> b]> root]> (w_files w))
          (S (w_txs w))
          (w_trace w ++ [EvCommit db [OpPut bucketName key data]]).

Definition rolled_back (w : World) : World :=
  mkWorld (w_files w) (S (w_txs w)) (w_trace w).

(** The error with which [Bucket.Put] itself refuses a put, if any. *)
Definition put_refused (key data : string) : option error :=
  if len key =? 0 then Some ErrKeyRequired
  else if len key >? MaxKeySize then Some ErrKeyTooLarge
  else if len data >? MaxValueSize then Some ErrValueTooLarge
  else None.

(** The world after more events. *)
Definition logged (w : World) (evs : list Event) : World :=
  mkWorld (w_files w) (w_txs w) (w_trace w ++ evs).

(** The world in which [main] calls [getAnswer]: the configuration
    directory made, the store of [home] open, its bucket ensured. *)
Definition ready (lib : Lib) (w : World) (home : string) : World :=
  let db := dbFile lib home in
  let root := default ∅ (w_files w !! db) in
  mkWorld (<[db := ensure_bucket root]> (w_files w)) (S (w_txs w))
          (w_trace w ++ [EvMkdirAll (filepath_Join lib home ".gogpt");
                         EvOpen db; EvCommit db (bucket_creation root)]).

(** The program's bucket in file [db]; empty when there is none. *)
Definition records (w : World) (db : string) : Bucket :=
  default ∅ (root ← w_files w !! db; root !! bucketName).

(** A world in which the program's store is open and its bucket empty. *)
Definition sample_world : World :=
  mkWorld {[ sample_db := {[ bucketName := ∅ ]} ]} 1%nat [].

Definition sample_ok_env : Env :=
  sample_env (ask "Capital of France?") [] (config_json "sk-key")
    (ok_200 (response_json "  Paris. ")).

Definition sample_no_choice_env : Env :=
  sample_env (ask "Capital of France?") [] (config_json "sk-key")
    (ok_200 "{}").

Definition sample_500_env : Env :=
  sample_env (ask "Capital of France?") [] (config_json "sk-key")
    status_500.

(** No flag, and no configuration file. *)
Definition sample_bare_env : Env :=
  sample_env no_flags [sample_config] "" (ok_200 (response_json "  Paris. ")).

(** A question, and no configuration file. *)
Definition sample_unconfigured_env : Env :=
  sample_env (ask "Capital of France?") [sample_config] ""
    (ok_200 (response_json "  Paris. ")).

(** [-debug] alone: no question. *)
Definition sample_debug_env : Env :=
  sample_env debug_only [] (config_json "sk-key")
    (ok_200 (response_json "  Paris. ")).

(** A configuration file that is not JSON. *)
Definition sample_bad_config_env : Env :=
  sample_env (ask "Capital of France?") [] "not json"
    (ok_200 (response_json "  Paris. ")).

(** *** The earlier versions: requests and samples *)

(** The request [Part001.getAnswer] sends. *)
Definition part001_request (lib : Lib) (apiKey question : string) : Request :=
  {| Method := "POST";
     URL := openAIURL;
     Header := [("Content-Type", "application/json");
                ("Authorization", "Bearer " +:+ apiKey)];
     ReqBody :=
       encode_ChatCompletionRequest lib
         {| Model := modelID;
            Messages := [ mkMessage "user" question ];
            Temperature := defaultTemperature |} |}.

(** The request [Part000.getAnswer] sends. *)
Definition part000_request (codec : Part000.Codec) (apiKey question : string)
  : Request :=
  {| Method := "POST";
     URL := Part000.openAIURL +:+ "/" +:+ Part000.modelEndpoint
            +:+ "/completions";
     Header := [("Content-Type", "application/json");
                ("Content-Type", "application/json");
                ("Authorization", "Bearer " +:+ apiKey)];
     ReqBody :=
       Part000.encode_CompletionRequest codec
         {| Part000.Prompt :=
              "Please answer the following question: " +:+ question;
            Part000.MaxTokens := 50;
            Part000.Temperature := 5 # 10;
            Part000.TopP := 1;
            Part000.FrequencyPenalty := 0;
            Part000.PresencePenalty := 0 |} |}.

Definition part000_answers_choices (codec : Part000.Codec) (env : Env)
  (req : Request) (choices : list Part000.Choice) : Prop :=
  exists resp body compResp,
    Do env req = Ok resp /\ StatusCode resp = http_StatusOK /\
    Body resp = Ok body /\
    Part000.decode_CompletionResponse codec body = Ok compResp /\
    Part000.Choices compResp = choices.

Definition sample_codec : Part000.Codec :=
  {| Part000.encode_CompletionRequest := fun r =>
       sample_object [("prompt", quoted (Part000.Prompt r));
                      ("max_tokens", "50"); ("temperature", "0.5");
                      ("top_p", "1"); ("frequency_penalty", "0");
                      ("presence_penalty", "0")];
     Part000.decode_CompletionResponse := fun data =>
       if String.eqb data "" then Err unexpected_end
       else if String.eqb data "{}" then
         Ok (Part000.mkCompletionResponse "" "" 0 "" [])
       else
         match between
                 ("{" +:+ quoted "choices" +:+ ":[{" +:+ quoted "text"
                  +:+ ":" +:+ dq)
                 (dq +:+ "}]}") data with
         | Some text =>
             Ok (Part000.mkCompletionResponse "" "" 0 ""
                   [Part000.mkChoice text 0 ""])
         | None => Err (sample_syntax_error data)
         end |}.

Definition sample_completion : result Response :=
  ok_200 (sample_object
            [("choices",
              "[" +:+ sample_object [("text", quoted " Paris. ")] +:+ "]")]).

(** The environments of the first version: the key file missing, and the
    key file holding a key. *)
Definition sample_no_key_env : Env :=
  sample_env no_flags [apiKeyFile] "" sample_completion.

Definition sample_key_env : Env :=
  sample_env no_flags [] "sk-key" sample_completion.

(** *** Phases shared by the three versions *)

(** Open the store at [path], ensure the bucket, run [body] with the store
    open, and close the store when [body] returns or panics. *)
Definition with_store (env : Env) (path : string) (body : DB -> M unit)
  : M unit :=
  r <- bolt_Open env path ;;
  match r with
  | Err err => log_Fatalf ("Error opening BoltDB: " +:+ Error_ err)
  | Ok db =>
      defer (DB_Close db)
        (err <- DB_Update env db
                  (r <- Tx_CreateBucketIfNotExists bucketName ;;
                   match r with
                   | Err err => ret (Some err)
                   | Ok _ => ret None
                   end) ;;
         match err with
         | Some err => log_Fatalf ("Error creating bucket: " +:+ Error_ err)
         | None => ret tt
         end ;;
         body db)
  end.

(** Ask, store the answer under [question], print it. *)
Definition finish (lib : Lib) (env : Env) (ask : M (result string))
  (question : string) (db : DB) : M unit :=
  r <- ask ;;
  match r with
  | Err err => log_Fatalf ("Error getting answer: " +:+ Error_ err)
  | Ok answer =>
      err <- storeQA lib env db question answer ;;
      match err with
      | Some err =>
          log_Fatalf ("Error storing question and answer: " +:+ Error_ err)
      | None => fmt_Printf ("Answer: " +:+ answer +:+ nl)
      end
  end.

(** The world once the store at [path] is open and its bucket ensured. *)
Definition opened (w : World) (path : string) : World :=
  let root := default ∅ (w_files w !! path) in
  mkWorld (<[path := ensure_bucket root]> (w_files w)) (S (w_txs w))
          (w_trace w ++ [EvOpen path; EvCommit path (bucket_creation root)]).

(** The world when the commit that ensures the bucket failed. *)
Definition open_failed (w : World) (path : string) : World :=
  mkWorld (<[path := default ∅ (w_files w !! path)]> (w_files w))
          (S (w_txs w)) (w_trace w ++ [EvOpen path]).

(** The log lines of [main] on an error with the configuration file. *)
Definition read_log (err : option error) : list Event :=
  match err with
  | Some err =>
      [EvLog logError ("Error reading API key file: " +:+ Error_ err)]
  | None => []
  end.

Definition decode_log (err : option error) : list Event :=
  match err with
  | Some err =>
      [EvLog logError ("Error unmarshalling API key file: " +:+ Error_ err)]
  | None => []
  end.

(** What [main] finds in the configuration file of [home]: the bytes read,
    and what decoding them leaves in [config]. *)
Definition config_read (lib : Lib) (env : Env) (home : string)
  : string * option error :=
  ReadFile env (configFile lib home).

Definition config_decoded (lib : Lib) (env : Env) (home : string)
  : Config * option error :=
  decode_Config lib (config_read lib env home).1 (mkConfig "").

(** The events of the preamble up to the decoding of the configuration. *)
Definition config_events (lib : Lib) (env : Env) (home : string)
  : list Event :=
  [EvMkdirAll (filepath_Join lib home ".gogpt");
   EvStat (configFile lib home); EvReadFile (configFile lib home)]
  ++ read_log (config_read lib env home).2
  ++ decode_log (config_decoded lib env home).2.

(** The text [main] analyzes: empty without [-file_to_analyze], the content
    of the file when it exists and can be read, none otherwise. *)
Definition text_read (env : Env) : option string :=
  let file := file_to_analyze env in
  if String.eqb file "" then Some ""
  else if os_IsNotExist (Stat env file) then None
  else
    match (ReadFile env file).2 with
    | Some _ => None
    | None => Some (ReadFile env file).1
    end.

(** The request a run of [main] sends, if it sends one: past the help gate,
    with a home directory, the configuration directory made, a
    configuration file that exists, a text that can be read, and the store
    open with its bucket ensured. *)
Definition main_request (lib : Lib) (env : Env) : option Request :=
  if help_gate env then None
  else
    match UserHomeDir env with
    | Err _ => None
    | Ok home =>
        match MkdirAll env (filepath_Join lib home ".gogpt") with
        | Some _ => None
        | None =>
            if os_IsNotExist (Stat env (configFile lib home)) then None
            else
              match text_read env with
              | None => None
              | Some text =>
                  match Open env (dbFile lib home), Commit env 0%nat with
                  | None, None =>
                      Some (completionRequest lib
                              (APIKey (config_decoded lib env home).1)
                              (question env) (example_prompt env)
                              (example_response env) text)
                  | _, _ => None
                  end
              end
        end
    end.

(** A text file is asked for and cannot be had. *)
Definition text_file_fails (env : Env) : Prop :=
  file_to_analyze env <> "" /\
  (os_IsNotExist (Stat env (file_to_analyze env)) = true \/
   (ReadFile env (file_to_analyze env)).2 <> None).

(** The completion call behind [req] fails with [err]: the network, a
    status other than 200, the body, or its decoding. *)
Definition completion_fails (lib : Lib) (env : Env) (req : Request)
  (err : error) : Prop :=
  Do env req = Err err \/
  exists resp,
    Do env req = Ok resp /\
    ((StatusCode resp <> http_StatusOK /\
      err = fmt_Errorf
              ("OpenAI API request failed with status: " +:+ Status resp)) \/
     (StatusCode resp = http_StatusOK /\
      (Body resp = Err err \/
       exists body,
         Body resp = Ok body /\
         decode_ChatCompletionResponse lib body = Err err))).

Definition is_close (e : Event) : bool :=
  match e with EvClose _ => true | _ => false end.

(** The store was closed in the course of a trace. *)
Definition closed (tr : list Event) : bool := existsb is_close tr.

(** [main] came to its end or panicked: it did not exit the process. *)
Definition returns_or_panics {A} (o : Outcome A) : bool :=
  match o with Exit _ => false | _ => true end.

Definition sample_network_down_env : Env :=
  sample_env (ask "Capital of France?") [] (config_json "sk-key")
    (Err (errors_New "dial tcp: connection refused")).

Definition sample_text_env : Env :=
  sample_env
    (mkCommandLine None (Some "Who speaks") None None (Some "/tmp/poem.txt")
       None)
    ["/tmp/poem.txt"] (config_json "sk-key")
    (ok_200 (response_json "  Paris. ")).

(** The program's bucket is in the file behind [db]. *)
Definition has_bucket (w : World) (db : DB) : Prop :=
  exists root b, w_files w !! db = Some root /\ root !! bucketName = Some b.

(** A question of more than 32768 bytes. *)
Definition long_question : string :=
  String.concat "" (replicate (Z.to_nat 32769) "q").

(** The concatenation of a list of strings. *)
Fixpoint join (l : list string) : string :=
  match l with
  | [] => ""
  | s :: l' => s +:+ join l'
  end.

(** A string made of white space runes only. *)
Definition all_space (s : string) : Prop :=
  exists l, Forall (fun p => p ∈ space_runes) l /\ s = join l.

(** [t] is [s] with leading and trailing white space trimmed: [s] is [t]
    between a prefix and a suffix made of white space runes only, and [t]
    neither begins nor ends with a white space rune. *)
Definition trimmed (s t : string) : Prop :=
  exists pre post,
    s = pre +:+ t +:+ post /\ all_space pre /\ all_space post /\
    strip_rune space_runes t = None /\
    strip_rune (String.rev <$> space_runes) (String.rev t) = None.

(** The store at [path] opens and the transaction that ensures the bucket,
    the one begun after [txs] others, commits. *)
Definition store_opens (env : Env) (path : string) (txs : nat) : bool :=
  match Open env path, Commit env txs with
  | None, None => true
  | _, _ => false
  end.

(** *** The second version as a run of [main.go]

    The command line as the second version reads it: the three flags it
    defines, the others absent. *)
Definition three_flags (env : Env) : Env :=
  let c := commandLine env in
  {| commandLine :=
       {| arg_help := arg_help c;
          arg_question := arg_question c;
          arg_example_prompt := None;
          arg_example_response := None;
          arg_file_to_analyze := None;
          arg_debug := arg_debug c |};
     UserHomeDir := UserHomeDir env;
     MkdirAll := MkdirAll env;
     Stat := Stat env;
     ReadFile := ReadFile env;
     Do := Do env;
     Open := Open env;
     Commit := Commit env |}.

(** The help gate of the second version. *)
Definition part001_gate (env : Env) : bool :=
  (Part001.flag_NFlag (commandLine env) =? 0)%nat || showHelp env.

(** The request a run of the second version sends, if it sends one. *)
Definition part001_main_request (lib : Lib) (env : Env) : option Request :=
  if part001_gate env then None
  else
    match UserHomeDir env with
    | Err _ => None
    | Ok home =>
        match MkdirAll env (filepath_Join lib home ".gogpt") with
        | Some _ => None
        | None =>
            if os_IsNotExist (Stat env (configFile lib home)) then None
            else if store_opens env (dbFile lib home) 0 then
              Some (part001_request lib
                      (APIKey (config_decoded lib env home).1)
                      (question env))
            else None
        end
    end.

(** The request a run of the first version sends, if it sends one: with a
    question on the command line, a key file that can be read, and the
    store open with its bucket ensured. *)
Definition part000_main_request (codec : Part000.Codec) (env : Env)
  (Args : list string) : option Request :=
  if (length Args <? 2)%nat then None
  else
    match (ReadFile env apiKeyFile).2 with
    | Some _ => None
    | None =>
        if store_opens env "qa.db" 0 then
          Some (part000_request codec (ReadFile env apiKeyFile).1
                  (String.concat " " (tail Args)))
        else None
    end.

(** The environment with [-debug] given as [d], or not given. *)
Definition set_debug (d : option bool) (env : Env) : Env :=
  let c := commandLine env in
  {| commandLine :=
       {| arg_help := arg_help c;
          arg_question := arg_question c;
          arg_example_prompt := arg_example_prompt c;
          arg_example_response := arg_example_response c;
          arg_file_to_analyze := arg_file_to_analyze c;
          arg_debug := d |};
     UserHomeDir := UserHomeDir env;
     MkdirAll := MkdirAll env;
     Stat := Stat env;
     ReadFile := ReadFile env;
     Do := Do env;
     Open := Open env;
     Commit := Commit env |}.

(** * Properties *)

Example TrimSpace_plain : TrimSpace "  Paris." = "Paris.".
Proof. reflexivity. Qed.

Example TrimSpace_both :
  TrimSpace (nl +:+ tab +:+ " a b " +:+ bytes [194; 160]%nat +:+ nl)
  = "a b".
Proof. reflexivity. Qed.

Example TrimSpace_all_space : TrimSpace (" " +:+ nl +:+ " ") = "".
Proof. reflexivity. Qed.

(** A lone continuation byte is not a space. *)
Example TrimSpace_stray_byte :
  TrimSpace (bytes [226; 128; 128; 128]%nat) = bytes [128%nat].
Proof. reflexivity. Qed.

(** ** [TrimSpace]: what the model guarantees *)

Lemma append_nil_l (s : string) : "" +:+ s = s.
Proof. reflexivity. Qed.

Lemma append_cons a (s1 s2 : string) :
  String a s1 +:+ s2 = String a (s1 +:+ s2).
Proof. reflexivity. Qed.

Lemma append_nil_r (s : string) : s +:+ "" = s.
Proof. induction s as [|a s IH]; [reflexivity|]. by rewrite append_cons, IH. Qed.

Lemma append_assoc (s1 s2 s3 : string) :
  (s1 +:+ s2) +:+ s3 = s1 +:+ (s2 +:+ s3).
Proof.
  induction s1 as [|a s1 IH]; [reflexivity|].
  by rewrite !append_cons, IH.
Qed.

Lemma append_length (s1 s2 : string) :
  String.length (s1 +:+ s2) = (String.length s1 + String.length s2)%nat.
Proof.
  induction s1 as [|a s1 IH]; [reflexivity|].
  rewrite append_cons. cbn. by rewrite IH.
Qed.

Lemma rev_app_spec (s1 s2 : string) :
  String.rev_app s1 s2 = String.rev s1 +:+ s2.
Proof.
  unfold String.rev. revert s2.
  induction s1 as [|a s1 IH]; intros s2; [reflexivity|].
  cbn. rewrite IH, (IH (String a "")), append_assoc. reflexivity.
Qed.

Lemma rev_cons a (s : string) :
  String.rev (String a s) = String.rev s +:+ String a "".
Proof. unfold String.rev at 1. cbn. apply rev_app_spec. Qed.

Lemma rev_append (s1 s2 : string) :
  String.rev (s1 +:+ s2) = String.rev s2 +:+ String.rev s1.
Proof.
  induction s1 as [|a s1 IH].
  - rewrite append_nil_l. symmetry. apply append_nil_r.
  - rewrite append_cons, !rev_cons, IH. apply append_assoc.
Qed.

Lemma rev_involutive (s : string) : String.rev (String.rev s) = s.
Proof.
  induction s as [|a s IH]; [reflexivity|].
  rewrite rev_cons, rev_append, IH. reflexivity.
Qed.

Lemma rev_length (s : string) : String.length (String.rev s) = String.length s.
Proof.
  induction s as [|a s IH]; [reflexivity|].
  rewrite rev_cons, append_length, IH. cbn. lia.
Qed.

Lemma strip_prefix_Some (p s r : string) :
  strip_prefix p s = Some r <-> s = p +:+ r.
Proof.
  revert s. induction p as [|a p IH]; intros s; cbn.
  - rewrite append_nil_l. split; [intros [= ->]|intros ->]; reflexivity.
  - rewrite append_cons. destruct s as [|b s]; [split; discriminate|].
    destruct (Ascii.eqb_spec a b) as [->|Hne].
    + rewrite IH. split; [intros ->|intros [= ->]]; reflexivity.
    + split; [discriminate|]. intros [= -> _]. contradiction.
Qed.

Lemma strip_rune_Some runes (s r : string) :
  strip_rune runes s = Some r -> exists p, p ∈ runes /\ s = p +:+ r.
Proof.
  induction runes as [|p runes IH]; cbn; [discriminate|].
  destruct (strip_prefix p s) as [r'|] eqn:Hp.
  - intros [= ->]. exists p. split; [left|]. by apply strip_prefix_Some.
  - intros (p' & Hin & ->)%IH. exists p'. split; [by right|reflexivity].
Qed.

Lemma strip_rune_None runes (s : string) :
  strip_rune runes s = None <-> forall p, p ∈ runes -> strip_prefix p s = None.
Proof.
  induction runes as [|p runes IH]; cbn.
  - split; [|reflexivity]. intros _ p Hp. inversion Hp.
  - destruct (strip_prefix p s) as [r|] eqn:Hp.
    + split; [discriminate|]. intros H. rewrite <- Hp. apply H. left.
    + rewrite IH. split.
      * intros H p' [->|Hin]%elem_of_cons; auto.
      * intros H p' Hin. apply H. by right.
Qed.

(** Trimming removes a prefix. *)
Lemma trim_left_prefix runes fuel (s : string) :
  exists pre, s = pre +:+ trim_left runes fuel s.
Proof.
  revert s. induction fuel as [|fuel IH]; intros s; cbn.
  - exists "". reflexivity.
  - destruct (strip_rune runes s) as [r|] eqn:Hr; [|by exists ""].
    apply strip_rune_Some in Hr as (p & _ & ->).
    destruct (IH r) as [pre Hpre]. exists (p +:+ pre).
    rewrite append_assoc. by rewrite <- Hpre.
Qed.

(** The length of the string is fuel enough: no rune is left to strip. *)
Lemma trim_left_done runes fuel (s : string) :
  Forall (fun p => p <> "") runes ->
  (String.length s <= fuel)%nat ->
  strip_rune runes (trim_left runes fuel s) = None.
Proof.
  intros Hne. revert s. induction fuel as [|fuel IH]; intros s Hlen; cbn.
  - destruct s; [|cbn in Hlen; lia].
    apply strip_rune_None. intros p Hp.
    rewrite Forall_forall in Hne. specialize (Hne p Hp).
    destruct p; [contradiction|reflexivity].
  - destruct (strip_rune runes s) as [r|] eqn:Hr; [|exact Hr].
    apply IH. apply strip_rune_Some in Hr as (p & Hp & ->).
    rewrite Forall_forall in Hne. specialize (Hne p Hp).
    rewrite append_length in Hlen. destruct p; [contradiction|].
    cbn in Hlen. lia.
Qed.

Lemma trim_left_id runes fuel (s : string) :
  strip_rune runes s = None -> trim_left runes fuel s = s.
Proof. destruct fuel; cbn; [reflexivity|]. by intros ->. Qed.

Lemma space_runes_nonempty : Forall (fun p => p <> "") space_runes.
Proof. repeat constructor; discriminate. Qed.

Lemma rev_space_runes_nonempty :
  Forall (fun p => p <> "") (String.rev <$> space_runes).
Proof. repeat constructor; discriminate. Qed.

(** [TrimSpace s] is a piece of [s]. *)
Lemma TrimSpace_infix (s : string) :
  exists pre post, s = pre +:+ TrimSpace s +:+ post.
Proof.
  unfold TrimSpace, TrimRightSpace, TrimLeftSpace.
  destruct (trim_left_prefix space_runes (String.length s) s) as [pre Hpre].
  set (t := trim_left space_runes (String.length s) s) in *.
  destruct (trim_left_prefix (String.rev <$> space_runes) (String.length t)
              (String.rev t)) as [x Hx].
  exists pre, (String.rev x).
  rewrite <- rev_append, <- Hx, rev_involutive. exact Hpre.
Qed.

(** No white space is left at the front... *)
Lemma TrimSpace_no_leading_space (s : string) :
  strip_rune space_runes (TrimSpace s) = None.
Proof.
  unfold TrimSpace, TrimRightSpace.
  pose proof (trim_left_done space_runes (String.length s) s
                space_runes_nonempty (le_n _)) as Hleft.
  fold (TrimLeftSpace s) in Hleft.
  set (t := TrimLeftSpace s) in *.
  destruct (trim_left_prefix (String.rev <$> space_runes) (String.length t)
              (String.rev t)) as [x Hx].
  set (u := trim_left _ _ _) in *.
  assert (Ht : t = String.rev u +:+ String.rev x)
    by (rewrite <- rev_append, <- Hx, rev_involutive; reflexivity).
  destruct (strip_rune space_runes (String.rev u)) as [r|] eqn:Hr;
    [|reflexivity].
  apply strip_rune_Some in Hr as (p & Hp & Hu).
  rewrite strip_rune_None in Hleft. specialize (Hleft p Hp).
  rewrite Ht, Hu, append_assoc in Hleft.
  assert (strip_prefix p (p +:+ r +:+ String.rev x)
          = Some (r +:+ String.rev x)) as Hsome
    by (by apply strip_prefix_Some).
  congruence.
Qed.

(** ... and none at the back. *)
Lemma TrimSpace_no_trailing_space (s : string) :
  strip_rune (String.rev <$> space_runes) (String.rev (TrimSpace s)) = None.
Proof.
  unfold TrimSpace, TrimRightSpace. rewrite rev_involutive.
  apply trim_left_done; [apply rev_space_runes_nonempty|].
  rewrite rev_length. reflexivity.
Qed.

Lemma TrimSpace_idempotent (s : string) : TrimSpace (TrimSpace s) = TrimSpace s.
Proof.
  pose proof (TrimSpace_no_leading_space s) as Hl.
  pose proof (TrimSpace_no_trailing_space s) as Hr.
  set (t := TrimSpace s) in *.
  unfold TrimSpace, TrimRightSpace, TrimLeftSpace.
  rewrite (trim_left_id _ _ t Hl), (trim_left_id _ _ _ Hr).
  apply rev_involutive.
Qed.

(** *** What is taken off, and what is left *)

Lemma join_app l1 l2 : join (l1 ++ l2) = join l1 +:+ join l2.
Proof.
  induction l1 as [|s l1 IH]; [reflexivity|].
  cbn [app join]. rewrite IH. symmetry. apply append_assoc.
Qed.

Lemma rev_join l : String.rev (join l) = join (String.rev <$> reverse l).
Proof.
  induction l as [|s l IH]; [reflexivity|].
  cbn [join]. rewrite rev_append, IH, reverse_cons, fmap_app, join_app.
  cbn. by rewrite append_nil_r.
Qed.

(** What trimming takes off the front is a sequence of the runes. *)
Lemma trim_left_runes runes fuel (s : string) :
  exists l, Forall (fun p => p ∈ runes) l /\
            s = join l +:+ trim_left runes fuel s.
Proof.
  revert s. induction fuel as [|fuel IH]; intros s; cbn.
  - exists []. split; [constructor|reflexivity].
  - destruct (strip_rune runes s) as [r|] eqn:Hr.
    + apply strip_rune_Some in Hr as (p & Hp & ->).
      destruct (IH r) as (l & Hl & Hr). exists (p :: l).
      split; [by constructor|]. cbn [join].
      rewrite append_assoc. by rewrite <- Hr.
    + exists []. split; [constructor|reflexivity].
Qed.

Lemma all_space_rev_runes l :
  Forall (fun p => p ∈ String.rev <$> space_runes) l ->
  all_space (String.rev (join l)).
Proof.
  intros Hl. exists (String.rev <$> reverse l). split; [|apply rev_join].
  apply Forall_fmap, Forall_reverse.
  eapply Forall_impl; [exact Hl|]. intros p Hp. cbn.
  apply list_elem_of_fmap in Hp as (p' & -> & Hp').
  by rewrite rev_involutive.
Qed.

(** [TrimSpace s] is [s] without a white space prefix and a white space
    suffix, and has no white space left at either end. *)
Lemma TrimSpace_spec (s : string) :
  exists pre post,
    s = pre +:+ TrimSpace s +:+ post /\ all_space pre /\ all_space post /\
    strip_rune space_runes (TrimSpace s) = None /\
    strip_rune (String.rev <$> space_runes) (String.rev (TrimSpace s)) = None.
Proof.
  destruct (trim_left_runes space_runes (String.length s) s)
    as (l1 & Hl1 & Hs).
  fold (TrimLeftSpace s) in Hs. set (t := TrimLeftSpace s) in *.
  destruct (trim_left_runes (String.rev <$> space_runes) (String.length t)
              (String.rev t)) as (l2 & Hl2 & Ht).
  exists (join l1), (String.rev (join l2)).
  split; [|split; [by exists l1|split; [by apply all_space_rev_runes|]]].
  - unfold TrimSpace, TrimRightSpace. fold t.
    rewrite <- rev_append, <- Ht, rev_involutive. exact Hs.
  - split; [apply TrimSpace_no_leading_space
           |apply TrimSpace_no_trailing_space].
Qed.

Lemma TrimSpace_trimmed (s : string) : trimmed s (TrimSpace s).
Proof. apply TrimSpace_spec. Qed.

(** ** Proof tools *)

Ltac destruct_match :=
  match goal with
  | |- context [match ?x with _ => _ end] =>
      lazymatch x with
      | context [match _ with _ => _ end] => fail
      | _ => destruct x eqn:?
      end
  end.

Ltac destruct_match_in H :=
  match type of H with
  | context [match ?x with _ => _ end] =>
      lazymatch x with
      | context [match _ with _ => _ end] => fail
      | _ => destruct x eqn:?
      end
  end.

Lemma requests_app tr1 tr2 : requests (tr1 ++ tr2) = requests tr1 ++ requests tr2.
Proof. apply omap_app. Qed.

Lemma puts_app tr1 tr2 : puts (tr1 ++ tr2) = puts tr1 ++ puts tr2.
Proof. apply flat_map_app. Qed.

Lemma store_events_app tr1 tr2 :
  store_events (tr1 ++ tr2) = store_events tr1 ++ store_events tr2.
Proof. apply List.filter_app. Qed.

Lemma before_Do_app tr1 tr2 :
  requests tr1 = [] -> before_Do (tr1 ++ tr2) = tr1 ++ before_Do tr2.
Proof.
  induction tr1 as [|e tr1 IH]; [reflexivity|].
  destruct e; cbn; try discriminate; intros H; f_equal; auto.
Qed.

(** ** [getAnswer] *)

Section GetAnswer.

Variable lib : Lib.
Variable env : Env.
Variables apiKey q ep er txt : string.

Let req := completionRequest lib apiKey q ep er txt.

Ltac run_getAnswer :=
  unfold req, completionRequest in *;
  unfold getAnswer, json_Marshal_ChatCompletionRequest, http_NewRequest,
    Header_Add, Client_Do, ioutil_ReadAll, bind, ret, emit, panic;
  cbn.

(** Whatever the endpoint answers, the call leaves exactly one event: the
    request. *)
Lemma getAnswer_world w :
  (getAnswer lib env apiKey q ep er txt w).2
  = mkWorld (w_files w) (w_txs w) (w_trace w ++ [EvDo req]).
Proof.
  run_getAnswer. repeat (destruct_match; cbn); reflexivity.
Qed.

Lemma getAnswer_network_error w err :
  Do env req = Err err ->
  (getAnswer lib env apiKey q ep er txt w).1 = Ret (Err err).
Proof.
  intros H. run_getAnswer. rewrite H. reflexivity.
Qed.

Lemma getAnswer_status w resp :
  Do env req = Ok resp -> StatusCode resp <> http_StatusOK ->
  (getAnswer lib env apiKey q ep er txt w).1
  = Ret (Err (fmt_Errorf
                ("OpenAI API request failed with status: " +:+ Status resp))).
Proof.
  intros H Hs. run_getAnswer. rewrite H.
  destruct (Z.eqb_spec (StatusCode resp) http_StatusOK); [contradiction|].
  reflexivity.
Qed.

Lemma getAnswer_choices w choices :
  answers_choices lib env req choices ->
  (getAnswer lib env apiKey q ep er txt w).1
  = match choices with
    | [] => Panic "runtime error: index out of range [0] with length 0"
    | c :: _ => Ret (Ok (TrimSpace (Content (Message_ c))))
    end.
Proof.
  intros (resp & body & chatResp & HDo & Hs & Hb & Hd & Hc).
  run_getAnswer. rewrite HDo, Hs, Hb, Hd, Hc. cbn.
  destruct choices; reflexivity.
Qed.

(** [getAnswer] panics in one case only: a decoded 200 answer without
    choices. *)
Lemma getAnswer_returns w :
  ~ answers_choices lib env req [] ->
  exists r, (getAnswer lib env apiKey q ep er txt w).1 = Ret r.
Proof.
  intros Hno. unfold answers_choices in Hno. run_getAnswer.
  destruct (Do env _) as [resp|] eqn:HDo; [|eauto].
  destruct (Z.eqb_spec (StatusCode resp) http_StatusOK) as [Hs|]; [|eauto].
  cbn. destruct (Body resp) as [body|] eqn:Hb; [|eauto].
  destruct (decode_ChatCompletionResponse lib body) as [chatResp|] eqn:Hd;
    [|eauto].
  destruct (Choices chatResp) as [|c rest] eqn:Hc; cbn; [|eauto].
  exfalso. apply Hno. exists resp, body, chatResp. auto.
Qed.

End GetAnswer.

(** ** [storeQA] *)

Section StoreQA.

Variable lib : Lib.
Variable env : Env.

Lemma storeQA_run db q a w :
  storeQA lib env db q a w =
  let data := encode_QA lib (mkQA q a) in
  let root := default ∅ (w_files w !! db) in
  match root !! bucketName with
  | None =>
      (Panic "runtime error: invalid memory address or nil pointer dereference",
       rolled_back w)
  | Some b =>
      match put_refused q data with
      | Some err => (Ret (Some err), rolled_back w)
      | None =>
          match Commit env (w_txs w) with
          | Some err => (Ret (Some err), rolled_back w)
          | None => (Ret None, after_put w db root b q data)
          end
      end
  end.
Proof.
  unfold storeQA, DB_Update, Tx_Bucket, Bucket_Put, json_Marshal_QA,
    put_refused, bind, ret, panic, after_put, rolled_back. cbn.
  destruct (default ∅ (w_files w !! db) !! bucketName) as [b|] eqn:Hb; cbn;
    [|reflexivity].
  repeat (destruct_match; cbn; try reflexivity; try discriminate).
  all: rewrite Hb; reflexivity.
Qed.

(** A successful [storeQA]: the file is open with the bucket in it, and the
    new world differs by one committed put. *)
Lemma storeQA_success db q a w w' :
  storeQA lib env db q a w = (Ret None, w') ->
  exists root b,
    w_files w !! db = Some root /\ root !! bucketName = Some b /\
    put_refused q (encode_QA lib (mkQA q a)) = None /\
    Commit env (w_txs w) = None /\
    w' = after_put w db root b q (encode_QA lib (mkQA q a)).
Proof.
  rewrite storeQA_run. cbn zeta.
  destruct (w_files w !! db) as [root|] eqn:Hf; cbn.
  - destruct (root !! bucketName) as [b|] eqn:Hb; [|discriminate].
    repeat (destruct_match; try discriminate).
    intros [= <-]. eauto 10.
  - rewrite lookup_empty. discriminate.
Qed.

Lemma storeQA_commits db q a w root b :
  w_files w !! db = Some root -> root !! bucketName = Some b ->
  put_refused q (encode_QA lib (mkQA q a)) = None ->
  Commit env (w_txs w) = None ->
  storeQA lib env db q a w
  = (Ret None, after_put w db root b q (encode_QA lib (mkQA q a))).
Proof.
  intros Hf Hb Hp Hc. rewrite storeQA_run. cbn zeta.
  rewrite Hf. cbn. rewrite Hb, Hp, Hc. reflexivity.
Qed.

Lemma stored_after_put w db root b key data :
  stored (after_put w db root b key data) db key = Some data.
Proof.
  unfold stored, after_put. cbn.
  rewrite lookup_insert_eq. cbn. rewrite lookup_insert_eq. cbn.
  apply lookup_insert_eq.
Qed.

End StoreQA.

Lemma pair_eta {A B} (p : A * B) (a : A) : p.1 = a -> p = (a, p.2).
Proof. destruct p; cbn; congruence. Qed.

Lemma records_after_put w db root b key data :
  records (after_put w db root b key data) db = <[key := data]> b.
Proof.
  unfold records, after_put. cbn.
  rewrite lookup_insert_eq. cbn. rewrite lookup_insert_eq. reflexivity.
Qed.

Lemma stored_records w db key : stored w db key = records w db !! key.
Proof.
  unfold stored, records.
  destruct (w_files w !! db) as [root|]; cbn; [|by rewrite lookup_empty].
  destruct (root !! bucketName); cbn; [done|by rewrite lookup_empty].
Qed.

Lemma records_Some w db root b :
  w_files w !! db = Some root -> root !! bucketName = Some b ->
  records w db = b.
Proof. intros Hf Hb. unfold records. rewrite Hf. cbn. rewrite Hb. done. Qed.

(** C6: a successful [storeQA db q a] stores, in the bucket [bucketName] of
    the open file and under the key [q] itself, the JSON serialization of
    the record [{question: q, answer: a}]; it commits that one put and
    touches no other key, no other bucket and no other file. *)
Theorem storeQA_stores_record lib env db q a w :
  (storeQA lib env db q a w).1 = Ret None ->
  let w' := (storeQA lib env db q a w).2 in
  let data := encode_QA lib (mkQA q a) in
  json_Marshal_QA lib (mkQA q a) = Ok data /\
  stored w' db q = Some data /\
  w_trace w' = w_trace w ++ [EvCommit db [OpPut bucketName q data]] /\
  (forall key, key <> q -> stored w' db key = stored w db key) /\
  (forall name, name <> bucketName ->
     (w_files w' !! db) ≫= (.!! name) = (w_files w !! db) ≫= (.!! name)) /\
  (forall path, path <> db -> w_files w' !! path = w_files w !! path).
Proof.
  intros H. apply pair_eta, storeQA_success in H.
  destruct H as (root & b & Hf & Hb & _ & _ & ->). cbn zeta.
  split; [reflexivity|]. split; [apply stored_after_put|].
  split; [reflexivity|]. split; [|split].
  - intros key Hk. rewrite !stored_records, records_after_put.
    rewrite (records_Some w db root b) by done.
    by rewrite lookup_insert_ne.
  - intros name Hn. unfold after_put. cbn.
    rewrite lookup_insert_eq, Hf. cbn. by rewrite lookup_insert_ne.
  - intros path Hp. unfold after_put. cbn. by rewrite lookup_insert_ne.
Qed.

Lemma storeQA_stores_record_witness :
  stored
    (storeQA sample_lib sample_ok_env sample_db "Capital of France?" "Paris."
       sample_world).2 sample_db "Capital of France?"
  = Some (encode_QA sample_lib (mkQA "Capital of France?" "Paris.")).
Proof.
  apply (storeQA_stores_record sample_lib sample_ok_env sample_db
           "Capital of France?" "Paris." sample_world).
  vm_compute. reflexivity.
Defined.

(** C4, as stated, fails: not every question can be stored.  With the empty
    question, which [main] passes when [-question] is not given, both
    writes are refused with bolt's [key required], and the store holds no
    record under the question, neither the first answer nor the second. *)
Lemma storeQA_empty_question_stores_nothing :
  (storeQA sample_lib sample_ok_env sample_db "" "Lyon." sample_world).1
  = Ret (Some ErrKeyRequired) /\
  (storeQA sample_lib sample_ok_env sample_db "" "Paris."
     (storeQA sample_lib sample_ok_env sample_db "" "Lyon." sample_world).2).1
  = Ret (Some ErrKeyRequired) /\
  stored
    (storeQA sample_lib sample_ok_env sample_db "" "Paris."
       (storeQA sample_lib sample_ok_env sample_db "" "Lyon."
          sample_world).2).2
    sample_db ""
  = None /\
  records
    (storeQA sample_lib sample_ok_env sample_db "" "Paris."
       (storeQA sample_lib sample_ok_env sample_db "" "Lyon."
          sample_world).2).2
    sample_db
  = ∅.
Proof. repeat split; vm_compute; reflexivity. Qed.

(** C4, amended: when [storeQA db q a1] and then [storeQA db q a2] both
    succeed, the bucket holds under [q] the record with answer [a2]; the
    second write adds no key (same keys, same number of records as after
    the first) and leaves every other key alone; the files are those a
    single write of [a2] would have left. *)
Theorem storeQA_overwrites lib env db q a1 a2 w :
  let r1 := storeQA lib env db q a1 w in
  let r2 := storeQA lib env db q a2 r1.2 in
  r1.1 = Ret None -> r2.1 = Ret None ->
  stored r2.2 db q = Some (encode_QA lib (mkQA q a2)) /\
  dom (records r2.2 db) = dom (records r1.2 db) /\
  size (records r2.2 db) = size (records r1.2 db) /\
  (forall key, key <> q -> stored r2.2 db key = stored w db key) /\
  w_files r2.2 = w_files (storeQA lib env db q a2 w).2.
Proof.
  intros r1 r2. subst r1 r2. cbn zeta. intros H1 H2.
  apply pair_eta, storeQA_success in H1.
  destruct H1 as (root & b & Hf & Hb & _ & Hc & E1).
  rewrite E1 in H2 |- *.
  apply pair_eta, storeQA_success in H2.
  destruct H2 as (root' & b' & Hf' & Hb' & Hp & _ & E2).
  rewrite E2. clear E1 E2.
  unfold after_put in Hf'. cbn in Hf'.
  rewrite lookup_insert_eq in Hf'. injection Hf' as <-.
  rewrite lookup_insert_eq in Hb'. injection Hb' as <-.
  split; [apply stored_after_put|].
  rewrite !records_after_put.
  assert (Hq : <[q := encode_QA lib (mkQA q a1)]> b !! q
               = Some (encode_QA lib (mkQA q a1))) by apply lookup_insert_eq.
  split; [|split; [|split]].
  - apply dom_insert_lookup_L. rewrite Hq. eauto.
  - apply map_size_insert_Some. rewrite Hq. eauto.
  - intros key Hk. rewrite !stored_records, records_after_put.
    rewrite (records_Some w db root b) by done.
    by rewrite !lookup_insert_ne.
  - rewrite (storeQA_commits lib env db q a2 w root b) by done.
    unfold after_put. cbn.
    rewrite !insert_insert_eq. reflexivity.
Qed.

Lemma storeQA_overwrites_witness :
  stored
    (storeQA sample_lib sample_ok_env sample_db "Capital of France?" "Paris."
       (storeQA sample_lib sample_ok_env sample_db "Capital of France?"
          "Lyon." sample_world).2).2
    sample_db "Capital of France?"
  = Some (encode_QA sample_lib (mkQA "Capital of France?" "Paris.")).
Proof.
  refine (proj1 (storeQA_overwrites sample_lib sample_ok_env sample_db
                   "Capital of France?" "Lyon." "Paris." sample_world _ _));
    vm_compute; reflexivity.
Defined.

(** C7: whatever the key [k], the question and the endpoint's answer,
    [getAnswer] adds exactly one event to the trace, an HTTP request; its
    method is POST, its URL is [openAIURL], its headers are the content type
    and [Authorization: Bearer k], and its body encodes a chat request whose
    model is [modelID] and whose temperature is [defaultTemperature]. *)
Theorem getAnswer_single_post lib env k q ep er txt w :
  exists req chatReq,
    w_trace (getAnswer lib env k q ep er txt w).2 = w_trace w ++ [EvDo req] /\
    requests (w_trace (getAnswer lib env k q ep er txt w).2)
    = requests (w_trace w) ++ [req] /\
    Method req = "POST" /\
    URL req = openAIURL /\
    Header req = [("Content-Type", "application/json");
                  ("Authorization", "Bearer " +:+ k)] /\
    ReqBody req = encode_ChatCompletionRequest lib chatReq /\
    Model chatReq = modelID /\
    Temperature chatReq = defaultTemperature.
Proof.
  eexists (completionRequest lib k q ep er txt), _.
  rewrite getAnswer_world. cbn [w_trace].
  rewrite requests_app. cbn.
  repeat split; reflexivity.
Qed.

(** C9: when the endpoint answers with status 200 and a body that decodes
    to a response without choices, [getAnswer] does not return an error: the
    index into the empty list of choices panics.  In every other case it
    returns.  So [getAnswer] returns a value or an error exactly when the
    decoded response, if there is one, has a choice. *)
Theorem getAnswer_zero_choices lib env k q ep er txt w :
  let req := completionRequest lib k q ep er txt in
  let o := (getAnswer lib env k q ep er txt w).1 in
  (answers_choices lib env req [] ->
   o = Panic "runtime error: index out of range [0] with length 0" /\
   forall r, o <> Ret r) /\
  ((exists r, o = Ret r) <-> ~ answers_choices lib env req []).
Proof.
  cbn zeta. split; [|split].
  - intros H. rewrite (getAnswer_choices _ _ _ _ _ _ _ _ _ H).
    split; [reflexivity|discriminate].
  - intros [r Hr] H.
    rewrite (getAnswer_choices _ _ _ _ _ _ _ _ _ H) in Hr. discriminate.
  - apply getAnswer_returns.
Qed.

Lemma getAnswer_zero_choices_witness :
  (getAnswer sample_lib sample_no_choice_env "sk-key" "Capital of France?"
     "" "" "" (init_world ∅)).1
  = Panic "runtime error: index out of range [0] with length 0".
Proof.
  refine (proj1 (proj1 (getAnswer_zero_choices sample_lib sample_no_choice_env
                   "sk-key" "Capital of France?" "" "" "" (init_world ∅)) _)).
  exists (mkResponse 200 "200 OK" (Ok "{}")), "{}",
    (mkChatCompletionResponse "" "" "" []).
  repeat split; reflexivity.
Defined.

(** ** The phases of [main] *)

Ltac unfold_calls :=
  unfold getConfigDir, getHomeDir, os_Stat, ioutil_ReadFile, os_MkdirAll,
    os_UserHomeDir, Logger_Printf, log_Fatalf, fmt_Printf, flag_PrintDefaults,
    when, emit, os_Exit, bind, ret in *.

Ltac trace_obs :=
  rewrite ?requests_app, ?store_events_app, ?puts_app; cbn;
  rewrite ?app_nil_r.

Lemma main_split lib env w :
  main lib env w = (x <- preamble lib env ;; session lib env x.1 x.2) w.
Proof.
  unfold main, preamble. unfold getConfigDir at 1 3.
  unfold getHomeDir, os_Stat, ioutil_ReadFile, os_MkdirAll, os_UserHomeDir,
    Logger_Printf, log_Fatalf, flag_PrintDefaults, when, emit, os_Exit, bind,
    ret.
  repeat (first [reflexivity | destruct_match; cbn [fst snd]]).
Qed.

(** The preamble touches neither the network nor the store.  It returns only
    past the help gate and with a configuration file that exists; it exits
    with status 0 at the help gate and with status 1 otherwise. *)
Lemma preamble_spec lib env w o w' :
  preamble lib env w = (o, w') ->
  w_files w' = w_files w /\ w_txs w' = w_txs w /\
  requests (w_trace w') = requests (w_trace w) /\
  store_events (w_trace w') = store_events (w_trace w) /\
  puts (w_trace w') = puts (w_trace w) /\
  match o with
  | Ret _ =>
      help_gate env = false /\
      exists home, UserHomeDir env = Ok home /\
                   os_IsNotExist (Stat env (configFile lib home)) = false
  | Exit code =>
      (help_gate env = true /\ code = 0 /\
       w_trace w' = w_trace w ++ [EvPrintDefaults]) \/
      (help_gate env = false /\ code = 1)
  | Panic _ => False
  end.
Proof.
  unfold preamble, help_gate, configFile. unfold_calls. intros H.
  repeat (destruct_match_in H; cbn [fst snd] in H).
  all: injection H as <- <-; cbn [w_files w_txs w_trace];
    trace_obs; repeat split; eauto.
Qed.

Lemma getAnswer_pair lib env k q ep er txt w :
  getAnswer lib env k q ep er txt w
  = ((getAnswer lib env k q ep er txt w).1,
     logged w [EvDo (completionRequest lib k q ep er txt)]).
Proof.
  unfold logged. rewrite <- (getAnswer_world lib env).
  apply surjective_pairing.
Qed.

Lemma ensure_bucket_lookup (root : Store) :
  ensure_bucket root !! bucketName = Some (default ∅ (root !! bucketName)).
Proof.
  unfold ensure_bucket. destruct (root !! bucketName) as [b|] eqn:Hb; cbn.
  - exact Hb.
  - apply lookup_insert_eq.
Qed.

Lemma ensure_bucket_other (root : Store) name :
  name <> bucketName -> ensure_bucket root !! name = root !! name.
Proof.
  intros Hn. unfold ensure_bucket. destruct (root !! bucketName); [done|].
  by rewrite lookup_insert_ne.
Qed.

(** *** The steps of [session], one equation each *)

Lemma bind_run {S A B} (m : St S A) (k : A -> St S B) s :
  bind m k s =
  match m s with
  | (Ret a, s') => k a s'
  | (Exit code, s') => (Exit code, s')
  | (Panic msg, s') => (Panic msg, s')
  end.
Proof. reflexivity. Qed.

Lemma getConfigDir_run lib env w :
  getConfigDir lib env w =
  match UserHomeDir env with
  | Err err =>
      (Exit 1,
       logged w [EvLog log_std
                   ("Error getting home directory: " +:+ Error_ err)])
  | Ok home =>
      let dir := filepath_Join lib home ".gogpt" in
      match MkdirAll env dir with
      | Some err =>
          (Exit 1,
           logged w [EvMkdirAll dir;
                     EvLog log_std
                       ("Error creating config directory: " +:+ Error_ err)])
      | None => (Ret dir, logged w [EvMkdirAll dir])
      end
  end.
Proof.
  unfold getConfigDir, getHomeDir, os_UserHomeDir, os_MkdirAll, log_Fatalf,
    emit, os_Exit, bind, ret, logged.
  destruct (UserHomeDir env); cbn; [|reflexivity].
  destruct (MkdirAll env _); cbn; rewrite <- ?app_assoc; reflexivity.
Qed.

Lemma bolt_Open_run env path w :
  bolt_Open env path w =
  match Open env path with
  | Some err => (Ret (Err err), logged w [EvOpen path])
  | None =>
      (Ret (Ok path),
       mkWorld (<[path := default ∅ (w_files w !! path)]> (w_files w))
               (w_txs w) (w_trace w ++ [EvOpen path]))
  end.
Proof.
  unfold bolt_Open, emit, bind, ret, logged.
  destruct (Open env path); cbn; [reflexivity|].
  destruct (w_files w !! path) eqn:Hf; cbn; [|reflexivity].
  by rewrite insert_id.
Qed.

Lemma ensure_bucket_run env db w :
  DB_Update env db
    (r <- Tx_CreateBucketIfNotExists bucketName ;;
     match r with
     | Err err => ret (Some err)
     | Ok _ => ret None
     end) w =
  let root := default ∅ (w_files w !! db) in
  match Commit env (w_txs w) with
  | Some err => (Ret (Some err), rolled_back w)
  | None =>
      (Ret None,
       mkWorld (<[db := ensure_bucket root]> (w_files w)) (S (w_txs w))
               (w_trace w ++ [EvCommit db (bucket_creation root)]))
  end.
Proof.
  unfold DB_Update, Tx_CreateBucketIfNotExists, bind, ret, rolled_back,
    ensure_bucket, bucket_creation. cbn.
  destruct (default ∅ (w_files w !! db) !! bucketName); cbn;
    destruct (Commit env (w_txs w)); reflexivity.
Qed.

Section Session.

Variable lib : Lib.
Variable env : Env.
Variable config : Config.
Variable text : string.

(** [session] either dies with status 1 before any request or put, or hands
    a [ready] world to the exchange, with the store to be closed at the
    end. *)
Lemma session_cases w o w' :
  session lib env config text w = (o, w') ->
  (o = Exit 1 /\ requests (w_trace w') = requests (w_trace w) /\
   puts (w_trace w') = puts (w_trace w))
  \/
  (exists home,
     UserHomeDir env = Ok home /\
     defer (DB_Close (dbFile lib home))
       (exchange lib env config text (dbFile lib home)) (ready lib w home)
     = (o, w')).
Proof.
  unfold session. rewrite bind_run, getConfigDir_run.
  destruct (UserHomeDir env) as [home|err] eqn:Hh;
    [|intros [= <- <-]; left; cbn; trace_obs; auto].
  cbn zeta. destruct (MkdirAll env _) eqn:Hm;
    [intros [= <- <-]; left; cbn; trace_obs; auto|].
  rewrite bind_run, bolt_Open_run. fold (dbFile lib home).
  destruct (Open env _) eqn:Ho;
    [intros [= <- <-]; left; cbn; trace_obs; auto|].
  cbv beta iota. unfold defer. rewrite bind_run, ensure_bucket_run. cbn zeta.
  destruct (Commit env _) eqn:Hc;
    [intros [= <- <-]; left; cbn; trace_obs; auto|].
  intros H. right. exists home. split; [reflexivity|].
  cbn [w_files w_txs w_trace logged] in H.
  rewrite lookup_insert_eq, insert_insert_eq, <- !app_assoc in H.
  exact H.
Qed.

(** The exchange, with the deferred [db.Close]. *)
Lemma exchange_run db w :
  defer (DB_Close db) (exchange lib env config text db) w =
  let w1 :=
    logged w
      [EvDo (completionRequest lib (APIKey config) (question env)
               (example_prompt env) (example_response env) text)] in
  match (getAnswer lib env (APIKey config) (question env) (example_prompt env)
           (example_response env) text w).1 with
  | Ret (Err err) =>
      (Exit 1,
       logged w1 [EvLog log_std ("Error getting answer: " +:+ Error_ err)])
  | Ret (Ok answer) =>
      match storeQA lib env db (question env) answer w1 with
      | (Ret None, w2) =>
          (Ret tt,
           logged w2 [EvPrint ("Answer: " +:+ answer +:+ nl); EvClose db])
      | (Ret (Some err), w2) =>
          (Exit 1,
           logged w2
             [EvLog log_std
                ("Error storing question and answer: " +:+ Error_ err)])
      | (Exit code, w2) => (Exit code, w2)
      | (Panic msg, w2) => (Panic msg, logged w2 [EvClose db])
      end
  | Exit code => (Exit code, w1)
  | Panic msg => (Panic msg, logged w1 [EvClose db])
  end.
Proof.
  unfold defer, exchange. rewrite bind_run, getAnswer_pair. cbn zeta.
  destruct (getAnswer lib env _ _ _ _ _ w).1 as [[answer|err]|code|msg];
    cbn [fst snd]; try reflexivity.
  rewrite bind_run.
  destruct (storeQA lib env db (question env) answer _) as [[[err|]|code|msg] w2];
    try reflexivity.
  unfold logged, fmt_Printf, DB_Close, emit, bind, ret. cbn.
  rewrite <- app_assoc. reflexivity.
Qed.

End Session.

(** A run of [main] either ends in the preamble or while opening the store
    (no request, no put, status 0 at the help gate and 1 otherwise), or gets
    past both and ends in the exchange. *)
Lemma main_cases lib env files o w' :
  run lib env files = (o, w') ->
  (exists code,
     o = Exit code /\
     ((help_gate env = true /\ code = 0 /\ w_trace w' = [EvPrintDefaults] /\
       w_files w' = files /\ w_txs w' = 0%nat) \/
      (help_gate env = false /\ code = 1)) /\
     requests (w_trace w') = [] /\ puts (w_trace w') = [])
  \/
  (exists config text w0 home,
     help_gate env = false /\ UserHomeDir env = Ok home /\
     os_IsNotExist (Stat env (configFile lib home)) = false /\
     w_files w0 = files /\ w_txs w0 = 0%nat /\
     requests (w_trace w0) = [] /\ store_events (w_trace w0) = [] /\
     puts (w_trace w0) = [] /\
     defer (DB_Close (dbFile lib home))
       (exchange lib env config text (dbFile lib home)) (ready lib w0 home)
     = (o, w')).
Proof.
  unfold run. rewrite main_split, bind_run.
  destruct (preamble lib env (init_world files)) as [op w0] eqn:Hpre.
  apply preamble_spec in Hpre.
  destruct Hpre as (Hf & Ht & Hr & Hs & Hp & Ho). cbn in Hf, Ht, Hr, Hs, Hp.
  destruct op as [[config text]|code|msg]; [|clear Hs|contradiction].
  - destruct Ho as (Hg & home & Hh & Hst). cbn [fst snd].
    intros H. apply session_cases in H.
    destruct H as [(-> & Hr' & Hp')|(home' & Hh' & H)].
    + left. exists 1. rewrite Hr', Hp'. auto 10.
    + right. exists config, text, w0, home'.
      assert (home' = home) as -> by congruence. auto 10.
  - intros [= <- <-]. left. exists code.
    destruct Ho as [(Hg & -> & Htr)|(Hg & ->)]; auto 10.
Qed.

(** ** Runs that reach the completion call *)

Lemma requests_ready lib w home :
  requests (w_trace (ready lib w home)) = requests (w_trace w).
Proof. unfold ready. cbn. trace_obs. reflexivity. Qed.

Lemma puts_bucket_creation root :
  List.filter is_put (bucket_creation root) = [].
Proof. unfold bucket_creation. destruct (root !! bucketName); reflexivity. Qed.

Lemma puts_ready lib w home :
  puts (w_trace (ready lib w home)) = puts (w_trace w).
Proof.
  unfold ready. cbn. rewrite puts_app. cbn.
  rewrite puts_bucket_creation. cbn. apply app_nil_r.
Qed.

Lemma files_ready lib w home :
  w_files (ready lib w home) !! dbFile lib home
  = Some (ensure_bucket (default ∅ (w_files w !! dbFile lib home))).
Proof. unfold ready. cbn. apply lookup_insert_eq. Qed.

(** Ensuring the bucket adds no record. *)
Lemma stored_ready lib w home path key :
  stored (ready lib w home) path key = stored w path key.
Proof.
  unfold stored, ready. cbn.
  destruct (decide (path = dbFile lib home)) as [->|Hne].
  - rewrite lookup_insert_eq. cbn. rewrite ensure_bucket_lookup. cbn.
    destruct (w_files w !! dbFile lib home) as [root|]; cbn.
    + destruct (root !! bucketName); cbn; [done|apply lookup_empty].
    + rewrite lookup_empty. cbn. apply lookup_empty.
  - by rewrite lookup_insert_ne.
Qed.

Lemma storeQA_requests lib env db q a w :
  requests (w_trace (storeQA lib env db q a w).2) = requests (w_trace w).
Proof.
  rewrite storeQA_run. cbn zeta. repeat destruct_match; cbn; trace_obs; done.
Qed.

Lemma exchange_requests lib env config text db w o w' :
  defer (DB_Close db) (exchange lib env config text db) w = (o, w') ->
  requests (w_trace w')
  = requests (w_trace w)
    ++ [completionRequest lib (APIKey config) (question env)
          (example_prompt env) (example_response env) text].
Proof.
  rewrite exchange_run. cbn zeta.
  destruct (getAnswer _ _ _ _ _ _ _ _).1 as [[answer|err]|code|msg].
  2-4: intros [= <- <-]; cbn; trace_obs; reflexivity.
  pose proof (storeQA_requests lib env db (question env) answer
                (logged w [EvDo (completionRequest lib (APIKey config)
                   (question env) (example_prompt env) (example_response env)
                   text)])) as Hq.
  destruct (storeQA _ _ _ _ _ _) as [[[err|]|code|msg] w2];
    cbn in Hq; intros [= <- <-]; cbn; trace_obs; rewrite ?Hq; trace_obs;
    reflexivity.
Qed.

(** A run that sent a request got past the preamble and opened the store;
    the request is the one [getAnswer] builds from the configured key, the
    flags and the text read. *)
Lemma main_reaches lib env files req :
  In req (requests (w_trace (run lib env files).2)) ->
  exists config text w0 home,
    help_gate env = false /\ UserHomeDir env = Ok home /\
    w_files w0 = files /\ w_txs w0 = 0%nat /\
    requests (w_trace w0) = [] /\ store_events (w_trace w0) = [] /\
    puts (w_trace w0) = [] /\
    defer (DB_Close (dbFile lib home))
      (exchange lib env config text (dbFile lib home)) (ready lib w0 home)
    = run lib env files /\
    req = completionRequest lib (APIKey config) (question env)
            (example_prompt env) (example_response env) text.
Proof.
  destruct (run lib env files) as [o w'] eqn:Hrun. cbn [snd].
  apply main_cases in Hrun.
  destruct Hrun as [(code & _ & _ & Hr & _)
                   |(config & text & w0 & home & Hg & Hh & _ & Hf & Ht & Hr
                     & Hs & Hp & Hx)].
  - rewrite Hr. intros [].
  - intros Hin. exists config, text, w0, home.
    apply exchange_requests in Hx as Hreq.
    rewrite requests_ready, Hr in Hreq. rewrite Hreq in Hin.
    destruct Hin as [<-|[]]. auto 10.
Qed.

Lemma stored_files w1 w2 db key :
  w_files w1 = w_files w2 -> stored w1 db key = stored w2 db key.
Proof. unfold stored. intros ->. reflexivity. Qed.

(** ** Failures of the completion call *)

(** C3: in every run in which the endpoint answers the request with a status
    other than 200, the call of [getAnswer] returns an error (it does not
    panic), the run begins no write transaction besides the one that
    ensures the bucket, commits no put, leaves every stored record as it
    was, and the process exits with status 1. *)
Theorem non200_is_fatal lib env files req resp :
  In req (requests (w_trace (run lib env files).2)) ->
  Do env req = Ok resp -> StatusCode resp <> http_StatusOK ->
  (exists apiKey text,
     req = completionRequest lib apiKey (question env) (example_prompt env)
             (example_response env) text /\
     forall w,
       (getAnswer lib env apiKey (question env) (example_prompt env)
          (example_response env) text w).1
       = Ret (Err (fmt_Errorf
                     ("OpenAI API request failed with status: "
                      +:+ Status resp)))) /\
  puts (w_trace (run lib env files).2) = [] /\
  w_txs (run lib env files).2 = 1%nat /\
  (forall db key,
     stored (run lib env files).2 db key = stored (init_world files) db key) /\
  exit_status (run lib env files).1 = 1.
Proof.
  intros Hin HDo Hs.
  destruct (main_reaches _ _ _ _ Hin)
    as (config & text & w0 & home & Hg & Hh & Hf & Ht & Hr & Hse & Hp & Hx
        & ->).
  rewrite <- Hx, exchange_run. cbn zeta.
  rewrite (getAnswer_status _ _ _ _ _ _ _ _ _ HDo Hs). cbn [fst snd].
  split; [|split; [|split; [|split]]].
  - exists (APIKey config), text. split; [reflexivity|].
    intros w. apply (getAnswer_status _ _ _ _ _ _ _ _ _ HDo Hs).
  - cbn -[ready]. rewrite !puts_app, puts_ready, Hp. reflexivity.
  - cbn. rewrite Ht. reflexivity.
  - intros db key.
    rewrite (stored_files _ (ready lib w0 home)) by reflexivity.
    rewrite stored_ready. apply stored_files. exact Hf.
  - reflexivity.
Qed.

Lemma non200_is_fatal_witness :
  puts (w_trace (run sample_lib sample_500_env ∅).2) = [] /\
  exit_status (run sample_lib sample_500_env ∅).1 = 1.
Proof.
  pose proof (non200_is_fatal sample_lib sample_500_env ∅
           (completionRequest sample_lib "sk-key" "Capital of France?" "" ""
              "")
           (mkResponse 500 "500 Internal Server Error" (Ok ""))) as H.
  destruct H as (_ & Hp & _ & _ & He).
  - vm_compute. left. reflexivity.
  - reflexivity.
  - vm_compute. discriminate.
  - split; [exact Hp|exact He].
Defined.

(** ** The answer and its record *)

(** C1: whatever the API key and the question, when the endpoint answers
    the request with status 200 and a body that decodes to a response with
    at least one choice, [getAnswer] returns the content of the first
    choice's message with leading and trailing white space trimmed: the
    content is the answer between a prefix and a suffix of white space
    runes only, and the answer neither begins nor ends with a white space
    rune ([trimmed]).  In a run of [main] with such an answer the only
    record [storeQA] can commit is the one whose answer field is that
    trimmed text, stored under the question: either the write fails
    (nothing is put, status 1), or exactly that record is put, is what the
    store then holds under the question, and the trimmed text is printed
    (status 0). *)
Theorem first_choice_trimmed_and_stored lib env :
  (forall apiKey q ep er txt w c rest,
     answers_choices lib env (completionRequest lib apiKey q ep er txt)
       (c :: rest) ->
     let answer := TrimSpace (Content (Message_ c)) in
     (getAnswer lib env apiKey q ep er txt w).1 = Ret (Ok answer) /\
     trimmed (Content (Message_ c)) answer) /\
  (forall files req c rest,
     In req (requests (w_trace (run lib env files).2)) ->
     answers_choices lib env req (c :: rest) ->
     let answer := TrimSpace (Content (Message_ c)) in
     let data := encode_QA lib (mkQA (question env) answer) in
     trimmed (Content (Message_ c)) answer /\
     ((puts (w_trace (run lib env files).2) = [] /\
       exit_status (run lib env files).1 = 1)
      \/
      (puts (w_trace (run lib env files).2)
       = [OpPut bucketName (question env) data] /\
       (exists home,
          UserHomeDir env = Ok home /\
          stored (run lib env files).2 (dbFile lib home) (question env)
          = Some data) /\
       In (EvPrint ("Answer: " +:+ answer +:+ nl))
          (w_trace (run lib env files).2) /\
       exit_status (run lib env files).1 = 0))).
Proof.
  split.
  { intros apiKey q ep er txt w c rest H. cbn zeta.
    split; [|apply TrimSpace_trimmed].
    apply (getAnswer_choices _ _ _ _ _ _ _ _ _ H). }
  intros files req c rest Hin Hans. cbn zeta.
  split; [apply TrimSpace_trimmed|].
  destruct (main_reaches _ _ _ _ Hin)
    as (config & text & w0 & home & Hg & Hh & Hf & Ht & Hr & Hse & Hp & Hx
        & ->).
  rewrite <- Hx, exchange_run. cbn zeta.
  rewrite (getAnswer_choices _ _ _ _ _ _ _ _ _ Hans).
  rewrite storeQA_run. cbn zeta. cbn [logged w_files].
  rewrite files_ready. cbn [from_option id]. rewrite ensure_bucket_lookup.
  destruct (put_refused _ _) as [err|] eqn:Hput.
  { left. cbn -[ready]. rewrite !puts_app, puts_ready, Hp. auto. }
  cbn [logged w_txs].
  destruct (Commit env _) as [err|] eqn:Hc.
  { left. cbn -[ready]. rewrite !puts_app, puts_ready, Hp. auto. }
  right. cbn [fst snd]. split; [|split; [|split]].
  - cbn -[ready]. rewrite !puts_app, puts_ready, Hp. reflexivity.
  - exists home. split; [exact Hh|].
    rewrite (stored_files _ (after_put
               (mkWorld (w_files (ready lib w0 home))
                        (w_txs (ready lib w0 home)) [])
               (dbFile lib home)
               (ensure_bucket (default ∅ (w_files w0 !! dbFile lib home)))
               (default ∅ (default ∅ (w_files w0 !! dbFile lib home)
                           !! bucketName))
               (question env)
               (encode_QA lib (mkQA (question env)
                                 (TrimSpace (Content (Message_ c)))))))
      by reflexivity.
    apply stored_after_put.
  - cbn -[ready]. rewrite !in_app_iff. right. left. reflexivity.
  - reflexivity.
Qed.

Lemma first_choice_trimmed_and_stored_witness :
  (getAnswer sample_lib sample_ok_env "sk-key" "Capital of France?" "" "" ""
     (init_world ∅)).1 = Ret (Ok "Paris.") /\
  trimmed "  Paris. " "Paris." /\
  stored (run sample_lib sample_ok_env ∅).2 sample_db "Capital of France?"
  = Some (encode_QA sample_lib (mkQA "Capital of France?" "Paris.")).
Proof.
  assert (Hans : answers_choices sample_lib sample_ok_env
            (completionRequest sample_lib "sk-key" "Capital of France?"
               "" "" "")
            [mkChoice (mkMessage "assistant" "  Paris. ") ""]).
  { exists (mkResponse 200 "200 OK" (Ok (response_json "  Paris. "))),
      (response_json "  Paris. "),
      (mkChatCompletionResponse "" "" ""
         [mkChoice (mkMessage "assistant" "  Paris. ") ""]).
    repeat split; reflexivity. }
  destruct (first_choice_trimmed_and_stored sample_lib sample_ok_env)
    as [HA HB].
  split; [|split].
  - exact (proj1 (HA "sk-key" "Capital of France?" "" "" "" (init_world ∅)
                    _ _ Hans)).
  - exact (proj2 (HA "sk-key" "Capital of France?" "" "" "" (init_world ∅)
                    _ _ Hans)).
  - specialize (HB ∅ _ _ _ (or_introl eq_refl : In _ (requests (w_trace (run sample_lib sample_ok_env ∅).2))) Hans).
    destruct HB as [_ [[Hp _]|(_ & (home & Hh & Hs) & _)]].
    + vm_compute in Hp. discriminate.
    + injection Hh as <-. exact Hs.
Defined.

(** ** The store before the completion call *)

Lemma exchange_before_Do lib env config text db w o w' :
  defer (DB_Close db) (exchange lib env config text db) w = (o, w') ->
  requests (w_trace w) = [] ->
  before_Do (w_trace w') = w_trace w.
Proof.
  rewrite exchange_run. cbn zeta. intros H Hr.
  assert (Hpre : forall evs,
            before_Do (w_trace w ++ EvDo
              (completionRequest lib (APIKey config) (question env)
                 (example_prompt env) (example_response env) text) :: evs)
            = w_trace w).
  { intros evs. rewrite before_Do_app by exact Hr. cbn. apply app_nil_r. }
  destruct (getAnswer _ _ _ _ _ _ _ _).1 as [[answer|err]|code|msg].
  2-4: injection H as <- <-; cbn; rewrite <- ?app_assoc; apply Hpre.
  rewrite storeQA_run in H. cbn zeta in H.
  repeat destruct_match_in H; injection H as <- <-; cbn;
    rewrite <- ?app_assoc; apply Hpre.
Qed.

(** Without a committed put, the exchange leaves the files as they were. *)
Lemma exchange_files lib env config text db w o w' :
  defer (DB_Close db) (exchange lib env config text db) w = (o, w') ->
  puts (w_trace w') = [] -> w_files w' = w_files w.
Proof.
  rewrite exchange_run. cbn zeta. intros H.
  destruct (getAnswer _ _ _ _ _ _ _ _).1 as [[answer|err]|code|msg].
  2-4: injection H as <- <-; reflexivity.
  rewrite storeQA_run in H. cbn zeta in H.
  repeat destruct_match_in H; injection H as <- <-; try reflexivity.
  cbn. rewrite !puts_app. cbn. intros Hp.
  apply app_eq_nil in Hp as [Hp _]. apply app_eq_nil in Hp as [_ Hp].
  discriminate.
Qed.

(** The exchange keeps the bucket in the store. *)
Lemma exchange_bucket lib env config text db w o w' root b :
  defer (DB_Close db) (exchange lib env config text db) w = (o, w') ->
  w_files w !! db = Some root -> root !! bucketName = Some b ->
  exists root' b', w_files w' !! db = Some root' /\
                   root' !! bucketName = Some b'.
Proof.
  rewrite exchange_run. cbn zeta. intros H Hf Hb.
  destruct (getAnswer _ _ _ _ _ _ _ _).1 as [[answer|err]|code|msg].
  2-4: injection H as <- <-; cbn; eauto.
  rewrite storeQA_run in H. cbn zeta in H.
  repeat destruct_match_in H; injection H as <- <-; cbn; eauto.
  rewrite lookup_insert_eq. eexists _, _. split; [reflexivity|].
  apply lookup_insert_eq.
Qed.

(** C10: in every run that sends the request, the store events that precede
    it are exactly: the file of the store is opened (created when absent),
    then one transaction is committed that creates the bucket when it is
    absent and does nothing else.  At the end of such a run the file exists
    and holds the bucket; and when no record is put (the completion call
    failed, or the write did), the files are the initial ones with that file
    and that bucket ensured: the bucket is empty when it was not there
    before. *)
Theorem store_ready_before_request lib env files req :
  In req (requests (w_trace (run lib env files).2)) ->
  exists home,
    UserHomeDir env = Ok home /\
    let db := dbFile lib home in
    let root := default ∅ (files !! db) in
    store_events (before_Do (w_trace (run lib env files).2))
    = [EvOpen db; EvCommit db (bucket_creation root)] /\
    (exists root' b, w_files (run lib env files).2 !! db = Some root' /\
                     root' !! bucketName = Some b) /\
    (puts (w_trace (run lib env files).2) = [] ->
     w_files (run lib env files).2 = <[db := ensure_bucket root]> files /\
     (root !! bucketName = None ->
      (w_files (run lib env files).2 !! db) ≫= (.!! bucketName) = Some ∅)).
Proof.
  intros Hin.
  destruct (main_reaches _ _ _ _ Hin)
    as (config & text & w0 & home & Hg & Hh & Hf & Ht & Hr & Hse & Hp & Hx
        & ->).
  exists home. split; [exact Hh|]. cbn zeta.
  destruct (run lib env files) as [o w'] eqn:Hrun. cbn [fst snd] in *.
  assert (Hfiles : puts (w_trace w') = [] ->
            w_files w'
            = <[dbFile lib home :=
                  ensure_bucket (default ∅ (files !! dbFile lib home))]>
                files).
  { intros Hnp. rewrite (exchange_files _ _ _ _ _ _ _ _ Hx Hnp).
    unfold ready. cbn. rewrite Hf. reflexivity. }
  split; [|split].
  - rewrite (exchange_before_Do _ _ _ _ _ _ _ _ Hx)
      by (rewrite requests_ready; exact Hr).
    unfold ready. cbn. rewrite store_events_app, Hse, Hf. reflexivity.
  - apply (exchange_bucket _ _ _ _ _ _ _ _ _ _ Hx (files_ready lib w0 home)
             (ensure_bucket_lookup _)).
  - intros Hnp. split; [exact (Hfiles Hnp)|].
    intros Hnone. rewrite (Hfiles Hnp), lookup_insert_eq. cbn.
    rewrite ensure_bucket_lookup, Hnone. reflexivity.
Qed.

Lemma store_ready_before_request_witness :
  store_events (before_Do (w_trace (run sample_lib sample_500_env ∅).2))
  = [EvOpen sample_db; EvCommit sample_db [OpCreateBucket bucketName]] /\
  w_files (run sample_lib sample_500_env ∅).2
  = {[ sample_db := {[ bucketName := ∅ ]} ]}.
Proof.
  destruct (store_ready_before_request sample_lib sample_500_env ∅
              (completionRequest sample_lib "sk-key" "Capital of France?"
                 "" "" ""))
    as (home & Hh & Hev & _ & Hfiles).
  - vm_compute. left. reflexivity.
  - injection Hh as <-. split; [exact Hev|].
    apply Hfiles. reflexivity.
Defined.

(** ** The configuration file *)

(** C5, as stated, fails: with no flag at all the help gate comes first, and
    the process exits with status 0 although the configuration file is
    missing. *)
Lemma missing_config_help_exits_zero :
  config_missing sample_lib sample_bare_env /\
  exit_status (run sample_lib sample_bare_env ∅).1 = 0.
Proof.
  split; [|reflexivity].
  intros home [= <-]. reflexivity.
Qed.

(** C5, amended: in every run in which the configuration file does not
    exist no request is sent (and nothing is put); the process exits with
    status 1 when the run gets past the help gate, and with status 0 at the
    help gate. *)
Theorem missing_config_no_request lib env files :
  config_missing lib env ->
  requests (w_trace (run lib env files).2) = [] /\
  puts (w_trace (run lib env files).2) = [] /\
  exit_status (run lib env files).1 = (if help_gate env then 0 else 1).
Proof.
  intros Hmiss.
  destruct (run lib env files) as [o w'] eqn:Hrun. cbn [fst snd].
  apply main_cases in Hrun.
  destruct Hrun as [(code & -> & Hcode & Hr & Hp)
                   |(config & text & w0 & home & _ & Hh & Hst & _)].
  - split; [exact Hr|]. split; [exact Hp|].
    destruct Hcode as [(-> & -> & _)|(-> & ->)]; reflexivity.
  - rewrite (Hmiss home Hh) in Hst. discriminate.
Qed.

Lemma missing_config_no_request_witness :
  requests (w_trace (run sample_lib sample_unconfigured_env ∅).2) = [] /\
  exit_status (run sample_lib sample_unconfigured_env ∅).1 = 1.
Proof.
  destruct (missing_config_no_request sample_lib sample_unconfigured_env ∅)
    as (Hr & _ & He).
  - intros home [= <-]. reflexivity.
  - split; [exact Hr|exact He].
Defined.

(** C2, at a configuration file that is not JSON: the decoding error is
    logged, and the run goes on with an empty key: it sends the request with
    the header [Authorization: Bearer ] and, the endpoint answering, stores
    the record and exits with status 0. *)
Theorem malformed_config_is_not_fatal :
  let r := run sample_lib sample_bad_config_env ∅ in
  (exists err,
     decode_Config sample_lib "not json" (mkConfig "")
     = (mkConfig "", Some err) /\
     In (EvLog logError ("Error unmarshalling API key file: " +:+ Error_ err))
        (w_trace r.2)) /\
  requests (w_trace r.2)
  = [completionRequest sample_lib "" "Capital of France?" "" "" ""] /\
  In ("Authorization", "Bearer ")
     (Header (completionRequest sample_lib "" "Capital of France?" "" "" "")) /\
  exit_status r.1 = 0.
Proof.
  cbn zeta. split; [|split; [|split]].
  - eexists. split; [vm_compute; reflexivity|]. vm_compute. tauto.
  - vm_compute. reflexivity.
  - right. left. reflexivity.
  - vm_compute. reflexivity.
Qed.

(** C8, at [-debug] alone: no question is given, yet the run is not
    rejected.  It sends a request built from the empty question; the store
    then refuses the empty key, and the process dies on that. *)
Theorem debug_only_asks_empty_question :
  let r := run sample_lib sample_debug_env ∅ in
  arg_question (commandLine sample_debug_env) = None /\
  question sample_debug_env = "" /\
  requests (w_trace r.2)
  = [completionRequest sample_lib "sk-key" "" "" "" ""] /\
  In (EvLog log_std "Error storing question and answer: key required")
     (w_trace r.2) /\
  puts (w_trace r.2) = [] /\
  exit_status r.1 = 1.
Proof.
  cbn zeta. split; [reflexivity|]. split; [reflexivity|].
  split; [vm_compute; reflexivity|]. split; [vm_compute; tauto|].
  split; vm_compute; reflexivity.
Qed.

(** ** What the help gate and the empty question do in general *)

(** X1: at the help gate nothing happens but the usage text. *)
Lemma help_gate_prints_defaults lib env files :
  help_gate env = true ->
  run lib env files = (Exit 0, mkWorld files 0%nat [EvPrintDefaults]).
Proof.
  intros Hg. destruct (run lib env files) as [o w'] eqn:Hrun.
  apply main_cases in Hrun.
  destruct Hrun as [(code & -> & Hcode & _)
                   |(config & text & w0 & home & Hg' & _)];
    [|congruence].
  destruct Hcode as [(_ & -> & Htr & Hf & Ht)|(Hg' & _)]; [|congruence].
  destruct w' as [f t tr]. cbn in *. subst. reflexivity.
Qed.

Lemma no_flag_is_help_gate env :
  flag_NFlag (commandLine env) = 0%nat -> help_gate env = true.
Proof. unfold help_gate. intros ->. reflexivity. Qed.

(** X2: with an empty question nothing is ever put: the store refuses
    the key. *)
Lemma empty_question_no_put lib env files :
  question env = "" -> puts (w_trace (run lib env files).2) = [].
Proof.
  intros Hq. destruct (run lib env files) as [o w'] eqn:Hrun. cbn [snd].
  apply main_cases in Hrun.
  destruct Hrun as [(code & _ & _ & _ & Hp)
                   |(config & text & w0 & home & _ & _ & _ & _ & _ & _ & _
                     & Hp & Hx)]; [exact Hp|].
  rewrite exchange_run in Hx. cbn zeta in Hx.
  assert (Hpr : puts (w_trace (ready lib w0 home)) = [])
    by (rewrite puts_ready; exact Hp).
  destruct (getAnswer _ _ _ _ _ _ _ _).1 as [[answer|err]|code|msg].
  2-4: injection Hx as <- <-; cbn -[ready]; rewrite !puts_app, Hpr;
       reflexivity.
  rewrite storeQA_run in Hx. cbn zeta in Hx.
  unfold put_refused in Hx. rewrite Hq in Hx. cbn [len String.length] in Hx.
  change (Z.of_nat 0 =? 0) with true in Hx. cbv iota in Hx.
  destruct_match_in Hx; injection Hx as <- <-; cbn -[ready];
    rewrite !puts_app, Hpr; reflexivity.
Qed.

(** ** Which failures are fatal *)

Lemma getAnswer_no_exit lib env k q ep er txt w code :
  (getAnswer lib env k q ep er txt w).1 <> Exit code.
Proof.
  unfold getAnswer, json_Marshal_ChatCompletionRequest, http_NewRequest,
    Client_Do, ioutil_ReadAll, bind, ret, emit, panic. cbn.
  repeat (destruct_match; cbn); discriminate.
Qed.


(** ** The configuration file that cannot be read or decoded *)

(** Whatever reading and decoding the configuration file answer, error or
    not, the preamble returns, with the decoded value. *)
Lemma preamble_ignores_config_errors lib env w home :
  help_gate env = false -> UserHomeDir env = Ok home ->
  MkdirAll env (filepath_Join lib home ".gogpt") = None ->
  os_IsNotExist (Stat env (configFile lib home)) = false ->
  file_to_analyze env = "" ->
  (preamble lib env w).1
  = Ret ((decode_Config lib (ReadFile env (configFile lib home)).1
            (mkConfig "")).1, "").
Proof.
  unfold help_gate, configFile. intros Hg Hh Hm Hs Hf.
  unfold preamble. unfold_calls. rewrite Hg, Hh. cbn. rewrite Hm. cbn.
  rewrite Hs, Hf. cbn.
  repeat (destruct_match; cbn); reflexivity.
Qed.

Lemma session_ready lib env config text w home :
  UserHomeDir env = Ok home ->
  MkdirAll env (filepath_Join lib home ".gogpt") = None ->
  Open env (dbFile lib home) = None ->
  Commit env (w_txs w) = None ->
  session lib env config text w
  = defer (DB_Close (dbFile lib home))
      (exchange lib env config text (dbFile lib home)) (ready lib w home).
Proof.
  intros Hh Hm Ho Hc.
  destruct (session lib env config text w) as [o w'] eqn:Hs.
  revert Hs. unfold session. rewrite bind_run, getConfigDir_run, Hh.
  cbn zeta. rewrite Hm, bind_run, bolt_Open_run. fold (dbFile lib home).
  rewrite Ho. cbv beta iota. unfold defer.
  rewrite bind_run, ensure_bucket_run. cbn zeta.
  cbn [w_files w_txs w_trace logged]. rewrite Hc.
  rewrite lookup_insert_eq, insert_insert_eq, <- !app_assoc.
  intros <-. reflexivity.
Qed.

(** An unreadable or malformed configuration file is logged but does not
    stop the run: when everything else goes well the request is sent, with
    whatever key decoding left behind. *)
Lemma config_errors_are_not_fatal lib env files home :
  help_gate env = false -> UserHomeDir env = Ok home ->
  MkdirAll env (filepath_Join lib home ".gogpt") = None ->
  os_IsNotExist (Stat env (configFile lib home)) = false ->
  file_to_analyze env = "" ->
  Open env (dbFile lib home) = None -> Commit env 0%nat = None ->
  let config :=
    (decode_Config lib (ReadFile env (configFile lib home)).1
       (mkConfig "")).1 in
  requests (w_trace (run lib env files).2)
  = [completionRequest lib (APIKey config) (question env)
       (example_prompt env) (example_response env) ""].
Proof.
  intros Hg Hh Hm Hs Hf Ho Hc. cbn zeta.
  destruct (run lib env files) as [o w'] eqn:Hrun. cbn [snd].
  unfold run in Hrun. rewrite main_split, bind_run in Hrun.
  destruct (preamble lib env (init_world files)) as [op w0] eqn:Hpre.
  pose proof (preamble_ignores_config_errors lib env (init_world files) home
                Hg Hh Hm Hs Hf) as Hop.
  rewrite Hpre in Hop. cbn [fst] in Hop. subst op.
  apply preamble_spec in Hpre.
  destruct Hpre as (_ & Ht & Hr & _). cbn in Ht, Hr.
  cbn [fst snd] in Hrun.
  rewrite (session_ready lib env _ _ w0 home Hh Hm Ho) in Hrun
    by (rewrite Ht; exact Hc).
  apply exchange_requests in Hrun.
  rewrite requests_ready, Hr in Hrun. exact Hrun.
Qed.

(** ** The earlier versions *)

Section Part001Facts.

Variable lib : Lib.
Variable env : Env.
Variables apiKey q : string.

Ltac run_getAnswer :=
  unfold part001_request in *;
  unfold Part001.getAnswer, json_Marshal_ChatCompletionRequest,
    http_NewRequest, Header_Add, Client_Do, ioutil_ReadAll, bind, ret, emit,
    panic;
  cbn.

(** As in [main.go]: one request, with the fixed method, URL, model and
    temperature and the bearer key. *)
Lemma part001_getAnswer_world w :
  (Part001.getAnswer lib env apiKey q w).2
  = logged w [EvDo (part001_request lib apiKey q)].
Proof.
  unfold logged. run_getAnswer. repeat (destruct_match; cbn); reflexivity.
Qed.

(** As in [main.go]: the trimmed content of the first choice, or a panic
    when there is none. *)
Lemma part001_getAnswer_choices w choices :
  answers_choices lib env (part001_request lib apiKey q) choices ->
  (Part001.getAnswer lib env apiKey q w).1
  = match choices with
    | [] => Panic "runtime error: index out of range [0] with length 0"
    | c :: _ => Ret (Ok (TrimSpace (Content (Message_ c))))
    end.
Proof.
  intros (resp & body & chatResp & HDo & Hs & Hb & Hd & Hc).
  run_getAnswer. rewrite HDo, Hs, Hb, Hd, Hc. cbn.
  destruct choices; reflexivity.
Qed.

End Part001Facts.

(** The two defects of [main.go] are already in this version: a
    configuration file that is not JSON does not stop the run, and [-debug]
    alone sends a request for the empty question. *)
Example part001_bad_config_run :
  let r := Part001.main sample_lib sample_bad_config_env (init_world ∅) in
  requests (w_trace r.2)
  = [part001_request sample_lib "" "Capital of France?"] /\
  exit_status r.1 = 0.
Proof. cbn zeta. split; vm_compute; reflexivity. Qed.

Example part001_debug_only_run :
  let r := Part001.main sample_lib sample_debug_env (init_world ∅) in
  requests (w_trace r.2) = [part001_request sample_lib "sk-key" ""] /\
  puts (w_trace r.2) = [] /\
  exit_status r.1 = 1.
Proof. cbn zeta. split; [|split]; vm_compute; reflexivity. Qed.

Section Part000Facts.

Variable codec : Part000.Codec.
Variable env : Env.
Variables apiKey q : string.

Ltac run_getAnswer :=
  unfold part000_request, part000_answers_choices in *;
  unfold Part000.getAnswer, Part000.json_Marshal_CompletionRequest,
    http_NewRequest, Header_Add, Client_Do, ioutil_ReadAll, bind, ret, emit,
    panic;
  cbn.

Lemma part000_getAnswer_world w :
  (Part000.getAnswer codec env apiKey q w).2
  = logged w [EvDo (part000_request codec apiKey q)].
Proof.
  unfold logged. run_getAnswer. repeat (destruct_match; cbn); reflexivity.
Qed.

(** The same unguarded index, into the choices of the completion API. *)
Lemma part000_getAnswer_choices w choices :
  part000_answers_choices codec env (part000_request codec apiKey q) choices ->
  (Part000.getAnswer codec env apiKey q w).1
  = match choices with
    | [] => Panic "runtime error: index out of range [0] with length 0"
    | c :: _ => Ret (Ok (TrimSpace (Part000.Text c)))
    end.
Proof.
  intros (resp & body & compResp & HDo & Hs & Hb & Hd & Hc).
  run_getAnswer. rewrite HDo, Hs, Hb, Hd, Hc. cbn.
  destruct choices; reflexivity.
Qed.

End Part000Facts.

(** In the first version a key file that cannot be read is fatal: nothing
    is sent. *)
Example part000_key_file_error_is_fatal :
  let r := Part000.main sample_lib sample_codec sample_no_key_env
             ["gogpt"; "Capital"; "of"; "France?"] (init_world ∅) in
  In (EvLog log_std
        "Error reading API key file: no such file or directory")
     (w_trace r.2) /\
  requests (w_trace r.2) = [] /\
  exit_status r.1 = 1.
Proof.
  cbn zeta. split; [vm_compute; tauto|]. split; vm_compute; reflexivity.
Qed.

Example part000_answers :
  let r := Part000.main sample_lib sample_codec sample_key_env
             ["gogpt"; "Capital"; "of"; "France?"] (init_world ∅) in
  requests (w_trace r.2)
  = [part000_request sample_codec "sk-key" "Capital of France?"] /\
  stored r.2 "qa.db" "Capital of France?"
  = Some (encode_QA sample_lib (mkQA "Capital of France?" "Paris.")) /\
  exit_status r.1 = 0.
Proof. cbn zeta. split; [|split]; vm_compute; reflexivity. Qed.

(** ** The phases shared by the versions *)

Lemma with_store_run env path body w :
  with_store env path body w =
  match Open env path with
  | Some err =>
      (Exit 1,
       logged w [EvOpen path;
                 EvLog log_std ("Error opening BoltDB: " +:+ Error_ err)])
  | None =>
      match Commit env (w_txs w) with
      | Some err =>
          (Exit 1,
           logged (open_failed w path)
             [EvLog log_std ("Error creating bucket: " +:+ Error_ err)])
      | None => defer (DB_Close path) (body path) (opened w path)
      end
  end.
Proof.
  unfold with_store. rewrite bind_run, bolt_Open_run.
  destruct (Open env path) as [err|] eqn:Ho.
  { unfold log_Fatalf, emit, os_Exit, bind, logged. cbn.
    rewrite <- app_assoc. reflexivity. }
  cbv beta iota. unfold defer at 1. rewrite bind_run, ensure_bucket_run.
  cbn zeta. cbn [w_files w_txs w_trace].
  rewrite lookup_insert_eq, insert_insert_eq. cbn [from_option id].
  destruct (Commit env (w_txs w)) as [err|] eqn:Hc.
  { unfold log_Fatalf, emit, os_Exit, bind, logged, open_failed, rolled_back.
    cbn. reflexivity. }
  unfold defer, opened. rewrite bind_run. cbn [ret fst snd].
  rewrite <- !app_assoc. reflexivity.
Qed.

Lemma finish_run lib env ask question db req w :
  (forall w0, (ask w0).2 = logged w0 [EvDo req]) ->
  defer (DB_Close db) (finish lib env ask question db) w =
  let w1 := logged w [EvDo req] in
  match (ask w).1 with
  | Ret (Err err) =>
      (Exit 1,
       logged w1 [EvLog log_std ("Error getting answer: " +:+ Error_ err)])
  | Ret (Ok answer) =>
      match storeQA lib env db question answer w1 with
      | (Ret None, w2) =>
          (Ret tt,
           logged w2 [EvPrint ("Answer: " +:+ answer +:+ nl); EvClose db])
      | (Ret (Some err), w2) =>
          (Exit 1,
           logged w2
             [EvLog log_std
                ("Error storing question and answer: " +:+ Error_ err)])
      | (Exit code, w2) => (Exit code, w2)
      | (Panic msg, w2) => (Panic msg, logged w2 [EvClose db])
      end
  | Exit code => (Exit code, w1)
  | Panic msg => (Panic msg, logged w1 [EvClose db])
  end.
Proof.
  intros Hask. unfold defer, finish. rewrite bind_run.
  rewrite (surjective_pairing (ask w)), Hask. cbn zeta.
  destruct (ask w).1 as [[answer|err]|code|msg]; cbn [fst snd];
    try reflexivity.
  rewrite bind_run.
  destruct (storeQA lib env db question answer _) as [[[err|]|code|msg] w2];
    try reflexivity.
  unfold logged, fmt_Printf, DB_Close, emit, bind, ret. cbn.
  rewrite <- app_assoc. reflexivity.
Qed.

(** The preamble of [main.go], run. *)
Lemma preamble_run lib env w :
  preamble lib env w =
  if help_gate env then (Exit 0, logged w [EvPrintDefaults])
  else
    match UserHomeDir env with
    | Err err =>
        (Exit 1,
         logged w [EvLog log_std
                     ("Error getting home directory: " +:+ Error_ err)])
    | Ok home =>
        let dir := filepath_Join lib home ".gogpt" in
        match MkdirAll env dir with
        | Some err =>
            (Exit 1,
             logged w [EvMkdirAll dir;
                       EvLog log_std
                         ("Error creating config directory: "
                          +:+ Error_ err)])
        | None =>
            if os_IsNotExist (Stat env (configFile lib home)) then
              (Exit 1,
               logged w [EvMkdirAll dir; EvStat (configFile lib home);
                         EvLog logError
                           ("Config file " +:+ configFile lib home
                            +:+ " does not exist")])
            else
              let config := (config_decoded lib env home).1 in
              let evs := config_events lib env home in
              let file := file_to_analyze env in
              if String.eqb file "" then (Ret (config, ""), logged w evs)
              else if os_IsNotExist (Stat env file) then
                (Exit 1,
                 logged w
                   (evs ++ [EvStat file;
                            EvLog logError
                              ("File " +:+ file +:+ " does not exist")]))
              else
                match (ReadFile env file).2 with
                | Some err =>
                    (Exit 1,
                     logged w
                       (evs ++ [EvStat file; EvReadFile file;
                                EvLog logError
                                  ("Error reading file: " +:+ Error_ err)]))
                | None =>
                    (Ret (config, (ReadFile env file).1),
                     logged w (evs ++ [EvStat file; EvReadFile file]))
                end
        end
    end.
Proof.
  unfold preamble, help_gate, config_events, config_decoded, config_read,
    configFile, read_log, decode_log, logged.
  unfold_calls.
  destruct (String.eqb (file_to_analyze env) "") eqn:Hfile; cbn [negb];
    repeat (destruct_match; cbn [fst snd]);
    cbn; rewrite <- ?app_assoc; cbn; reflexivity.
Qed.

(** ** [main.go]: the whole run *)

Lemma session_run lib env config text w :
  session lib env config text w =
  match UserHomeDir env with
  | Err err =>
      (Exit 1,
       logged w [EvLog log_std
                   ("Error getting home directory: " +:+ Error_ err)])
  | Ok home =>
      let dir := filepath_Join lib home ".gogpt" in
      match MkdirAll env dir with
      | Some err =>
          (Exit 1,
           logged w [EvMkdirAll dir;
                     EvLog log_std
                       ("Error creating config directory: " +:+ Error_ err)])
      | None =>
          with_store env (dbFile lib home) (exchange lib env config text)
            (logged w [EvMkdirAll dir])
      end
  end.
Proof.
  change (session lib env config text w)
    with ((configDir <- getConfigDir lib env ;;
           with_store env (configDir +:+ "/qa.db")
             (exchange lib env config text)) w).
  rewrite bind_run, getConfigDir_run.
  destruct (UserHomeDir env) as [home|err]; [|reflexivity].
  cbn zeta. destruct (MkdirAll env _); reflexivity.
Qed.

Lemma opened_ready lib w home :
  opened (logged w [EvMkdirAll (filepath_Join lib home ".gogpt")])
    (dbFile lib home)
  = ready lib w home.
Proof. unfold opened, ready, logged. cbn. rewrite <- app_assoc. reflexivity. Qed.

Lemma main_run lib env files :
  run lib env files =
  match preamble lib env (init_world files) with
  | (Ret x, w0) => session lib env x.1 x.2 w0
  | (Exit code, w0) => (Exit code, w0)
  | (Panic msg, w0) => (Panic msg, w0)
  end.
Proof. unfold run. rewrite main_split. apply bind_run. Qed.

Lemma requests_logged w evs :
  requests (w_trace (logged w evs)) = requests (w_trace w) ++ requests evs.
Proof. apply requests_app. Qed.

Lemma requests_opened w path :
  requests (w_trace (opened w path)) = requests (w_trace w).
Proof. unfold opened. cbn. rewrite requests_app. cbn. apply app_nil_r. Qed.

Lemma requests_open_failed w path :
  requests (w_trace (open_failed w path)) = requests (w_trace w).
Proof. unfold open_failed. cbn. rewrite requests_app. cbn. apply app_nil_r. Qed.

Lemma requests_config_events lib env home :
  requests (config_events lib env home) = [].
Proof.
  unfold config_events, read_log, decode_log. cbn.
  destruct (config_read lib env home).2, (config_decoded lib env home).2;
    reflexivity.
Qed.

(** X4: the request a run sends.  Whatever the environment, a run of [main]
    sends at most one request, and it sends one exactly when
    [main_request] says so. *)
Theorem main_sends_request lib env files :
  requests (w_trace (run lib env files).2) = option_list (main_request lib env).
Proof.
  rewrite main_run, preamble_run. unfold main_request, text_read.
  destruct (help_gate env); [reflexivity|].
  destruct (UserHomeDir env) as [home|err] eqn:Hh; [|reflexivity].
  cbn zeta. destruct (MkdirAll env _) as [err|] eqn:Hm; [reflexivity|].
  destruct (os_IsNotExist (Stat env (configFile lib home))); [reflexivity|].
  assert (Hgo : forall text evs,
    requests evs = [] ->
    requests (w_trace (session lib env (config_decoded lib env home).1 text
                         (logged (init_world files) evs)).2)
    = option_list
        match Open env (dbFile lib home), Commit env 0%nat with
        | None, None =>
            Some (completionRequest lib
                    (APIKey (config_decoded lib env home).1)
                    (question env) (example_prompt env)
                    (example_response env) text)
        | _, _ => None
        end).
  { intros text evs Hevs. rewrite session_run, Hh. cbn zeta. rewrite Hm.
    rewrite with_store_run.
    destruct (Open env _) as [err|];
      [cbn [snd];
       rewrite ?requests_logged, ?requests_open_failed, ?requests_logged,
         Hevs; reflexivity|].
    cbn [logged w_txs init_world].
    destruct (Commit env 0%nat) as [err|];
      [cbn [snd];
       rewrite ?requests_logged, ?requests_open_failed, ?requests_logged,
         Hevs; reflexivity|].
    rewrite opened_ready.
    destruct (defer _ _ _) as [o w'] eqn:Hx.
    apply exchange_requests in Hx. cbn [snd].
    rewrite Hx, requests_ready, requests_logged, Hevs. reflexivity. }
  destruct (String.eqb (file_to_analyze env) "").
  { cbn [fst snd]. apply Hgo. apply requests_config_events. }
  destruct (os_IsNotExist (Stat env (file_to_analyze env)));
    [cbn [snd];
     rewrite requests_logged, requests_app, requests_config_events;
     reflexivity|].
  destruct (ReadFile env (file_to_analyze env)).2;
    [cbn [snd];
     rewrite requests_logged, requests_app, requests_config_events;
     reflexivity|].
  cbn [fst snd]. apply Hgo.
  rewrite requests_app, requests_config_events. reflexivity.
Qed.

(** X5: past the help gate, a run that sends no request has failed: the
    process exits with status 1 and no record is put. *)
Theorem no_request_is_failure lib env files :
  help_gate env = false ->
  requests (w_trace (run lib env files).2) = [] ->
  exit_status (run lib env files).1 = 1 /\
  puts (w_trace (run lib env files).2) = [].
Proof.
  intros Hg. destruct (run lib env files) as [o w'] eqn:Hrun. cbn [fst snd].
  apply main_cases in Hrun.
  destruct Hrun as [(code & -> & Hcode & _ & Hp)
                   |(config & text & w0 & home & _ & _ & _ & _ & _ & Hr & _
                     & _ & Hx)].
  - intros _. destruct Hcode as [(Hg' & _)|(_ & ->)]; [congruence|auto].
  - apply exchange_requests in Hx. rewrite requests_ready, Hr in Hx.
    rewrite Hx. discriminate.
Qed.

Lemma no_request_is_failure_witness :
  exit_status (run sample_lib sample_unconfigured_env ∅).1 = 1 /\
  puts (w_trace (run sample_lib sample_unconfigured_env ∅).2) = [].
Proof.
  apply (no_request_is_failure sample_lib sample_unconfigured_env ∅);
    vm_compute; reflexivity.
Defined.

Lemma preamble_frame lib env w :
  w_files (preamble lib env w).2 = w_files w /\
  w_txs (preamble lib env w).2 = w_txs w /\
  store_events (w_trace (preamble lib env w).2) = store_events (w_trace w).
Proof.
  destruct (preamble lib env w) as [o w'] eqn:H.
  apply preamble_spec in H. cbn [snd]. tauto.
Qed.

(** X6: a text file that is asked for and does not exist, or cannot be read,
    stops the run before the store is touched: past the help gate the
    process exits with status 1, sends nothing, opens no store and leaves
    the files as they were. *)
Theorem text_file_errors_are_fatal lib env files :
  help_gate env = false -> text_file_fails env ->
  exit_status (run lib env files).1 = 1 /\
  requests (w_trace (run lib env files).2) = [] /\
  store_events (w_trace (run lib env files).2) = [] /\
  w_files (run lib env files).2 = files.
Proof.
  intros Hg [Hfile Hfail].
  assert (Hpre : exists w0,
            preamble lib env (init_world files) = (Exit 1, w0)).
  { rewrite preamble_run, Hg.
    destruct (UserHomeDir env) as [home|err]; [|eauto].
    cbn zeta. destruct (MkdirAll env _); [eauto|].
    destruct (os_IsNotExist (Stat env (configFile lib home))); [eauto|].
    destruct (String.eqb_spec (file_to_analyze env) ""); [contradiction|].
    destruct (os_IsNotExist (Stat env (file_to_analyze env))); [eauto|].
    destruct (ReadFile env (file_to_analyze env)).2; [eauto|].
    destruct Hfail as [?|?]; [discriminate|contradiction]. }
  destruct Hpre as [w0 Hpre].
  pose proof (preamble_frame lib env (init_world files)) as (Hf & _ & Hs).
  pose proof (preamble_spec _ _ _ _ _ Hpre) as (_ & _ & Hr & _).
  rewrite main_run, Hpre. rewrite Hpre in Hf, Hs. cbn in *. auto.
Qed.

Lemma text_file_errors_are_fatal_witness :
  exit_status (run sample_lib sample_text_env ∅).1 = 1 /\
  requests (w_trace (run sample_lib sample_text_env ∅).2) = [] /\
  store_events (w_trace (run sample_lib sample_text_env ∅).2) = [] /\
  w_files (run sample_lib sample_text_env ∅).2 = ∅.
Proof.
  apply (text_file_errors_are_fatal sample_lib sample_text_env ∅).
  - reflexivity.
  - split; [discriminate|]. left. reflexivity.
Defined.

(** ** [main.go]: how a run ends *)

Lemma getAnswer_fails lib env k q ep er txt w err :
  completion_fails lib env (completionRequest lib k q ep er txt) err ->
  (getAnswer lib env k q ep er txt w).1 = Ret (Err err).
Proof.
  intros [HDo|(resp & HDo & [[Hs ->]|[Hs [Hb|(body & Hb & Hd)]]])].
  - by apply getAnswer_network_error.
  - by apply getAnswer_status.
  - unfold completionRequest in HDo.
    unfold getAnswer, json_Marshal_ChatCompletionRequest, http_NewRequest,
      Header_Add, Client_Do, ioutil_ReadAll, bind, ret, emit. cbn.
    rewrite HDo, Hs, Hb. reflexivity.
  - unfold completionRequest in HDo.
    unfold getAnswer, json_Marshal_ChatCompletionRequest, http_NewRequest,
      Header_Add, Client_Do, ioutil_ReadAll, bind, ret, emit. cbn.
    rewrite HDo, Hs, Hb, Hd. reflexivity.
Qed.

Lemma closed_app tr1 tr2 : closed (tr1 ++ tr2) = closed tr1 || closed tr2.
Proof. apply existsb_app. Qed.

Lemma closed_store_events tr : store_events tr = [] -> closed tr = false.
Proof.
  induction tr as [|e tr IH]; [reflexivity|].
  unfold store_events. cbn. destruct e; cbn; try discriminate; exact IH.
Qed.

Lemma closed_ready lib w home :
  closed (w_trace (ready lib w home)) = closed (w_trace w).
Proof. unfold ready. cbn. rewrite closed_app. cbn. apply orb_false_r. Qed.

Lemma stored_logged w evs db key : stored (logged w evs) db key = stored w db key.
Proof. reflexivity. Qed.

(** X7: a completion call that fails is fatal, whatever the failure: the
    network, a status other than 200, a body that cannot be read or that
    does not decode.  The run logs [Error getting answer: ...] with the
    error as its last act, puts nothing, leaves every stored record as it
    was, does not close the store, and exits with status 1. *)
Theorem completion_failure_is_fatal lib env files req err :
  In req (requests (w_trace (run lib env files).2)) ->
  completion_fails lib env req err ->
  (run lib env files).1 = Exit 1 /\
  last (w_trace (run lib env files).2)
  = Some (EvLog log_std ("Error getting answer: " +:+ Error_ err)) /\
  puts (w_trace (run lib env files).2) = [] /\
  closed (w_trace (run lib env files).2) = false /\
  (forall db key,
     stored (run lib env files).2 db key = stored (init_world files) db key).
Proof.
  intros Hin Hfail.
  destruct (main_reaches _ _ _ _ Hin)
    as (config & text & w0 & home & Hg & Hh & Hf & Ht & Hr & Hse & Hp & Hx
        & ->).
  rewrite <- Hx, exchange_run. cbn zeta.
  rewrite (getAnswer_fails _ _ _ _ _ _ _ _ _ Hfail). cbn [fst snd].
  split; [reflexivity|]. split; [|split; [|split]].
  - unfold logged. cbn [w_trace]. apply last_snoc.
  - cbn -[ready]. rewrite !puts_app, puts_ready, Hp. reflexivity.
  - cbn -[ready]. rewrite !closed_app, closed_ready.
    rewrite (closed_store_events _ Hse). reflexivity.
  - intros db key. rewrite !stored_logged, stored_ready.
    apply stored_files. exact Hf.
Qed.

Lemma completion_failure_is_fatal_witness :
  (run sample_lib sample_network_down_env ∅).1 = Exit 1 /\
  last (w_trace (run sample_lib sample_network_down_env ∅).2)
  = Some (EvLog log_std
            "Error getting answer: dial tcp: connection refused").
Proof.
  destruct (completion_failure_is_fatal sample_lib sample_network_down_env ∅
              (completionRequest sample_lib "sk-key" "Capital of France?"
                 "" "" "")
              (errors_New "dial tcp: connection refused"))
    as (Ho & Hl & _).
  - vm_compute. left. reflexivity.
  - left. reflexivity.
  - split; [exact Ho|exact Hl].
Defined.

(** X8: when the endpoint answers with status 200 and a decoded response
    without choices, the process crashes: [main] panics on the index (exit
    status 2), nothing is put and every stored record stays as it was; the
    deferred [db.Close] still runs, as the last act. *)
Theorem zero_choices_crash lib env files req :
  In req (requests (w_trace (run lib env files).2)) ->
  answers_choices lib env req [] ->
  (run lib env files).1
  = Panic "runtime error: index out of range [0] with length 0" /\
  exit_status (run lib env files).1 = 2 /\
  (exists home,
     UserHomeDir env = Ok home /\
     last (w_trace (run lib env files).2) = Some (EvClose (dbFile lib home))) /\
  puts (w_trace (run lib env files).2) = [] /\
  (forall db key,
     stored (run lib env files).2 db key = stored (init_world files) db key).
Proof.
  intros Hin Hans.
  destruct (main_reaches _ _ _ _ Hin)
    as (config & text & w0 & home & Hg & Hh & Hf & Ht & Hr & Hse & Hp & Hx
        & ->).
  rewrite <- Hx, exchange_run. cbn zeta.
  rewrite (getAnswer_choices _ _ _ _ _ _ _ _ _ Hans). cbn [fst snd].
  split; [reflexivity|]. split; [reflexivity|]. split; [|split].
  - exists home. split; [exact Hh|].
    unfold logged. cbn [w_trace]. apply last_snoc.
  - cbn -[ready]. rewrite !puts_app, puts_ready, Hp. reflexivity.
  - intros db key. rewrite !stored_logged, stored_ready.
    apply stored_files. exact Hf.
Qed.

Lemma zero_choices_crash_witness :
  exit_status (run sample_lib sample_no_choice_env ∅).1 = 2 /\
  puts (w_trace (run sample_lib sample_no_choice_env ∅).2) = [].
Proof.
  destruct (zero_choices_crash sample_lib sample_no_choice_env ∅
              (completionRequest sample_lib "sk-key" "Capital of France?"
                 "" "" ""))
    as (_ & He & _ & Hp & _).
  - vm_compute. left. reflexivity.
  - exists (mkResponse 200 "200 OK" (Ok "{}")), "{}",
      (mkChatCompletionResponse "" "" "" []).
    repeat split; reflexivity.
  - split; [exact He|exact Hp].
Defined.

Lemma storeQA_closed lib env db q a w :
  closed (w_trace (storeQA lib env db q a w).2) = closed (w_trace w).
Proof.
  rewrite storeQA_run. cbn zeta.
  repeat destruct_match; cbn; rewrite ?closed_app; cbn;
    rewrite ?orb_false_r; reflexivity.
Qed.

Lemma storeQA_no_exit lib env db q a w code :
  (storeQA lib env db q a w).1 <> Exit code.
Proof.
  rewrite storeQA_run. cbn zeta. repeat destruct_match; discriminate.
Qed.

Lemma exchange_closed lib env config text db w :
  closed (w_trace w) = false ->
  closed (w_trace (defer (DB_Close db) (exchange lib env config text db) w).2)
  = returns_or_panics
      (defer (DB_Close db) (exchange lib env config text db) w).1.
Proof.
  intros Hw. rewrite exchange_run. cbn zeta.
  pose proof (getAnswer_no_exit lib env (APIKey config) (question env)
                (example_prompt env) (example_response env) text w) as Hne.
  destruct (getAnswer _ _ _ _ _ _ _ _).1 as [[answer|err]|code|msg].
  2,4: cbn; rewrite !closed_app, Hw; reflexivity.
  2: exfalso; exact (Hne code eq_refl).
  pose proof (storeQA_closed lib env db (question env) answer
                (logged w [EvDo (completionRequest lib (APIKey config)
                   (question env) (example_prompt env) (example_response env)
                   text)])) as Hc.
  pose proof (storeQA_no_exit lib env db (question env) answer
                (logged w [EvDo (completionRequest lib (APIKey config)
                   (question env) (example_prompt env) (example_response env)
                   text)])) as Hx.
  destruct (storeQA _ _ _ _ _ _) as [[[err|]|code|msg] w2]; cbn in Hc, Hx |- *.
  - rewrite closed_app, Hc, closed_app, Hw. reflexivity.
  - rewrite closed_app, Hc, closed_app, Hw. reflexivity.
  - exfalso. exact (Hx code eq_refl).
  - rewrite closed_app, Hc, closed_app, Hw. reflexivity.
Qed.

Local Ltac quiet :=
  cbn [fst snd]; unfold logged, open_failed; cbn [w_trace];
  rewrite !closed_app;
  match goal with H : closed _ = false |- _ => rewrite H end; reflexivity.

(** X9: the deferred [db.Close] runs exactly when [main] returns or panics.
    Every fatal path ([os.Exit], [log.Fatalf]) ends the process with the
    store still open, and whenever [main] returns or panics the store was
    open and is closed. *)
Theorem store_closed_unless_exit lib env files :
  closed (w_trace (run lib env files).2)
  = returns_or_panics (run lib env files).1.
Proof.
  rewrite main_run.
  pose proof (preamble_frame lib env (init_world files)) as (_ & _ & Hs).
  destruct (preamble lib env (init_world files)) as [op w0] eqn:Hpre.
  cbn [snd] in Hs. apply closed_store_events in Hs.
  apply preamble_spec in Hpre as (_ & _ & _ & _ & _ & Ho).
  destruct op as [[config text]|code|msg]; [|exact Hs|contradiction].
  cbn [fst snd]. rewrite session_run.
  destruct (UserHomeDir env) as [home|err];
    [|quiet].
  cbn zeta.
  destruct (MkdirAll env _); [quiet|].
  rewrite with_store_run.
  destruct (Open env _); [quiet|].
  destruct (Commit env _); [quiet|].
  rewrite opened_ready. apply exchange_closed.
  rewrite closed_ready. exact Hs.
Qed.

(** ** [main.go]: errors with the configuration file *)

Lemma prefix_logged w evs : w_trace w `prefix_of` w_trace (logged w evs).
Proof. by exists evs. Qed.

Lemma storeQA_prefix lib env db q a w :
  w_trace w `prefix_of` w_trace (storeQA lib env db q a w).2.
Proof.
  rewrite storeQA_run. cbn zeta.
  repeat destruct_match; cbn; try reflexivity. by eexists.
Qed.

Lemma exchange_prefix lib env config text db w :
  w_trace w
  `prefix_of` w_trace (defer (DB_Close db) (exchange lib env config text db) w).2.
Proof.
  rewrite exchange_run. cbn zeta.
  destruct (getAnswer _ _ _ _ _ _ _ _).1 as [[answer|err]|code|msg].
  2-4: cbn [snd]; repeat (etrans; [|apply prefix_logged]); reflexivity.
  pose proof (storeQA_prefix lib env db (question env) answer
                (logged w [EvDo (completionRequest lib (APIKey config)
                   (question env) (example_prompt env) (example_response env)
                   text)])) as Hp.
  destruct (storeQA _ _ _ _ _ _) as [[[err|]|code|msg] w2]; cbn [snd] in *.
  all: try (etrans; [|apply prefix_logged]).
  all: etrans; [|exact Hp]; apply prefix_logged.
Qed.

Lemma session_prefix lib env config text w :
  w_trace w `prefix_of` w_trace (session lib env config text w).2.
Proof.
  rewrite session_run.
  destruct (UserHomeDir env) as [home|err]; [|apply prefix_logged].
  cbn zeta. destruct (MkdirAll env _); [apply prefix_logged|].
  rewrite with_store_run.
  destruct (Open env _);
    [cbn [snd]; etrans; [|apply prefix_logged]; apply prefix_logged|].
  destruct (Commit env _).
  { cbn [snd]. etrans; [|apply prefix_logged].
    unfold open_failed. cbn [w_trace]. etrans; [|by eexists].
    apply prefix_logged. }
  rewrite opened_ready. etrans; [|apply exchange_prefix].
  unfold ready. cbn [w_trace]. by eexists.
Qed.

(** X10: past the help gate and with a configuration file that exists, the
    run begins with making the directory and reading the file, and logs one
    line on the error stream for a read error and one for a decoding
    error, naming the error; neither stops the run there. *)
Theorem config_errors_are_logged lib env files home :
  help_gate env = false -> UserHomeDir env = Ok home ->
  MkdirAll env (filepath_Join lib home ".gogpt") = None ->
  os_IsNotExist (Stat env (configFile lib home)) = false ->
  config_events lib env home `prefix_of` w_trace (run lib env files).2 /\
  (forall err,
     (ReadFile env (configFile lib home)).2 = Some err ->
     In (EvLog logError ("Error reading API key file: " +:+ Error_ err))
        (w_trace (run lib env files).2)) /\
  (forall err,
     (decode_Config lib (ReadFile env (configFile lib home)).1
        (mkConfig "")).2 = Some err ->
     In (EvLog logError ("Error unmarshalling API key file: " +:+ Error_ err))
        (w_trace (run lib env files).2)).
Proof.
  intros Hg Hh Hm Hs.
  assert (Hpre : config_events lib env home
                 `prefix_of` w_trace (run lib env files).2).
  { rewrite main_run, preamble_run, Hg, Hh. cbn zeta. rewrite Hm, Hs.
    destruct (String.eqb (file_to_analyze env) "").
    { cbn [fst snd]. etrans; [|apply session_prefix]. reflexivity. }
    destruct (os_IsNotExist (Stat env (file_to_analyze env)));
      [by eexists|].
    destruct (ReadFile env (file_to_analyze env)).2; [by eexists|].
    cbn [fst snd]. etrans; [|apply session_prefix]. by eexists. }
  split; [exact Hpre|].
  destruct Hpre as [rest ->]. unfold config_events, config_decoded,
    config_read.
  split; intros err ->; rewrite !in_app_iff; cbn; tauto.
Qed.

Lemma config_errors_are_logged_witness :
  In (EvLog logError
        ("Error unmarshalling API key file: "
         +:+ "invalid character 'o' in literal null (expecting 'u')"))
     (w_trace (run sample_lib sample_bad_config_env ∅).2).
Proof.
  pose proof (config_errors_are_logged sample_lib sample_bad_config_env ∅
                "/home/u" eq_refl eq_refl eq_refl eq_refl) as (_ & _ & H).
  apply (H (errors_New
              "invalid character 'o' in literal null (expecting 'u')")).
  vm_compute. reflexivity.
Defined.

(** ** [storeQA]: when it succeeds, and what a failure leaves *)

Lemma has_bucket_lookup w db :
  has_bucket w db <->
  exists b, default ∅ (w_files w !! db) !! bucketName = Some b.
Proof.
  unfold has_bucket. split.
  - intros (root & b & -> & Hb). exists b. exact Hb.
  - intros [b Hb]. destruct (w_files w !! db) as [root|]; cbn in Hb.
    + eauto.
    + rewrite lookup_empty in Hb. discriminate.
Qed.

Lemma put_refused_None key data :
  put_refused key data = None <->
  0 < len key <= MaxKeySize /\ len data <= MaxValueSize.
Proof.
  unfold put_refused, len.
  destruct (Z.eqb_spec (Z.of_nat (String.length key)) 0).
  { split; [discriminate|lia]. }
  destruct (Z.gtb_spec (Z.of_nat (String.length key)) MaxKeySize).
  { split; [discriminate|lia]. }
  destruct (Z.gtb_spec (Z.of_nat (String.length data)) MaxValueSize).
  { split; [discriminate|lia]. }
  split; [lia|reflexivity].
Qed.

(** X11: [storeQA] returns nil exactly when the bucket is in the open file,
    the question is not empty and not longer than 32768 bytes, the encoded
    record is not longer than 2^31 - 2 bytes, and the transaction
    commits. *)
Theorem storeQA_succeeds_iff lib env db q a w :
  (storeQA lib env db q a w).1 = Ret None <->
  has_bucket w db /\
  0 < len q <= MaxKeySize /\
  len (encode_QA lib (mkQA q a)) <= MaxValueSize /\
  Commit env (w_txs w) = None.
Proof.
  split.
  - intros H. apply pair_eta, storeQA_success in H.
    destruct H as (root & b & Hf & Hb & Hp & Hc & _).
    apply put_refused_None in Hp. split; [by exists root, b|tauto].
  - intros ((root & b & Hf & Hb) & Hq & Hd & Hc).
    rewrite (storeQA_commits lib env db q a w root b); try done.
    apply put_refused_None. auto.
Qed.

(** X12: [storeQA] panics exactly when the bucket is missing from the file
    behind [db] (the nil bucket is dereferenced); with the bucket there it
    returns nil or an error, and it never exits the process. *)
Theorem storeQA_panics_iff lib env db q a w :
  ((exists msg, (storeQA lib env db q a w).1 = Panic msg) <->
   ~ has_bucket w db) /\
  (has_bucket w db -> exists err, (storeQA lib env db q a w).1 = Ret err) /\
  (forall code, (storeQA lib env db q a w).1 <> Exit code).
Proof.
  rewrite has_bucket_lookup. rewrite storeQA_run. cbn zeta.
  destruct (default ∅ (w_files w !! db) !! bucketName) as [b|] eqn:Hb.
  - split; [|split].
    + split; [|intros H; exfalso; eauto].
      intros [msg H]. revert H. repeat destruct_match; discriminate.
    + intros _. repeat destruct_match; eauto.
    + intros code. repeat destruct_match; discriminate.
  - split; [|split].
    + split; [|eauto]. intros _ [b ?]. discriminate.
    + intros [b ?]. discriminate.
    + discriminate.
Qed.

(** X13: a [storeQA] that does not return nil changes nothing: the files are
    as they were and nothing is added to the trace (the transaction is
    rolled back; only the count of transactions begun moves). *)
Theorem storeQA_failure_rolls_back lib env db q a w :
  (storeQA lib env db q a w).1 <> Ret None ->
  w_files (storeQA lib env db q a w).2 = w_files w /\
  w_trace (storeQA lib env db q a w).2 = w_trace w /\
  w_txs (storeQA lib env db q a w).2 = S (w_txs w).
Proof.
  rewrite storeQA_run. cbn zeta.
  repeat destruct_match; cbn; auto. intros H. contradiction.
Qed.

Lemma storeQA_failure_rolls_back_witness :
  w_files (storeQA sample_lib sample_ok_env sample_db "" "Paris."
             sample_world).2
  = w_files sample_world.
Proof.
  refine (proj1 (storeQA_failure_rolls_back sample_lib sample_ok_env
                   sample_db "" "Paris." sample_world _)).
  vm_compute. discriminate.
Defined.

(** X14: with the bucket in place, [storeQA] refuses the empty question with
    bolt's [key required] and a question of more than 32768 bytes with
    [key too large]; otherwise a failed commit is the error returned. *)
Theorem storeQA_refusals lib env db q a w :
  has_bucket w db ->
  (q = "" -> (storeQA lib env db q a w).1 = Ret (Some ErrKeyRequired)) /\
  (len q > MaxKeySize ->
   (storeQA lib env db q a w).1 = Ret (Some ErrKeyTooLarge)) /\
  (forall err,
     0 < len q <= MaxKeySize ->
     len (encode_QA lib (mkQA q a)) <= MaxValueSize ->
     Commit env (w_txs w) = Some err ->
     (storeQA lib env db q a w).1 = Ret (Some err)).
Proof.
  rewrite has_bucket_lookup. intros [b Hb].
  rewrite storeQA_run. cbn zeta. rewrite Hb.
  split; [|split].
  - intros ->. reflexivity.
  - intros Hlen. unfold put_refused.
    destruct (Z.eqb_spec (len q) 0) as [H0|_]; [unfold MaxKeySize in *; lia|].
    destruct (Z.gtb_spec (len q) MaxKeySize); [reflexivity|lia].
  - intros err Hq Hd Hc.
    destruct (put_refused q _) eqn:Hp.
    + assert (put_refused q (encode_QA lib (mkQA q a)) = None) as Hn
        by (apply put_refused_None; auto).
      congruence.
    + rewrite Hc. reflexivity.
Qed.

Lemma storeQA_refusals_witness :
  (storeQA sample_lib sample_ok_env sample_db "" "Paris." sample_world).1
  = Ret (Some ErrKeyRequired) /\
  (storeQA sample_lib sample_ok_env sample_db long_question "Paris."
     sample_world).1
  = Ret (Some ErrKeyTooLarge).
Proof.
  assert (H : has_bucket sample_world sample_db).
  { unfold has_bucket. exists {[ bucketName := ∅ ]}. exists ∅.
    split; vm_compute; reflexivity. }
  split.
  - destruct (storeQA_refusals sample_lib sample_ok_env sample_db ""
                "Paris." sample_world H) as (H1 & _).
    exact (H1 eq_refl).
  - destruct (storeQA_refusals sample_lib sample_ok_env sample_db
                long_question "Paris." sample_world H) as (_ & H2 & _).
    apply H2. vm_compute. reflexivity.
Defined.

(** X15: two successful writes under different questions keep both records,
    touch no other key, and leave the same files in either order. *)
Theorem storeQA_two_questions lib env db q1 a1 q2 a2 w :
  let r1 := storeQA lib env db q1 a1 w in
  let r2 := storeQA lib env db q2 a2 r1.2 in
  q1 <> q2 -> r1.1 = Ret None -> r2.1 = Ret None ->
  stored r2.2 db q1 = Some (encode_QA lib (mkQA q1 a1)) /\
  stored r2.2 db q2 = Some (encode_QA lib (mkQA q2 a2)) /\
  (forall key, key <> q1 -> key <> q2 ->
     stored r2.2 db key = stored w db key) /\
  w_files r2.2
  = w_files (storeQA lib env db q1 a1 (storeQA lib env db q2 a2 w).2).2.
Proof.
  intros r1 r2. subst r1 r2. cbn zeta. intros Hne H1 H2.
  apply pair_eta, storeQA_success in H1.
  destruct H1 as (root & b & Hf & Hb & Hp1 & Hc1 & E1).
  rewrite E1 in H2 |- *.
  apply pair_eta, storeQA_success in H2.
  destruct H2 as (root' & b' & Hf' & Hb' & Hp2 & Hc2 & E2).
  rewrite E2. clear E1 E2.
  unfold after_put in Hf', Hc2. cbn in Hf', Hc2.
  rewrite lookup_insert_eq in Hf'. injection Hf' as <-.
  rewrite lookup_insert_eq in Hb'. injection Hb' as <-.
  rewrite !stored_records, !records_after_put.
  split; [|split; [|split]].
  - rewrite lookup_insert_ne by congruence. apply lookup_insert_eq.
  - apply lookup_insert_eq.
  - intros key Hk1 Hk2. rewrite !stored_records, records_after_put.
    rewrite (records_Some w db root b) by done.
    by rewrite !lookup_insert_ne.
  - rewrite (storeQA_commits lib env db q2 a2 w root b) by done.
    rewrite (storeQA_commits lib env db q1 a1 _
               (<[bucketName := <[q2 := encode_QA lib (mkQA q2 a2)]> b]> root)
               (<[q2 := encode_QA lib (mkQA q2 a2)]> b)).
    + unfold after_put. cbn. rewrite !insert_insert_eq.
      f_equal. f_equal. apply insert_insert_ne. congruence.
    + unfold after_put. cbn. apply lookup_insert_eq.
    + apply lookup_insert_eq.
    + exact Hp1.
    + exact Hc2.
Qed.

Lemma storeQA_two_questions_witness :
  stored
    (storeQA sample_lib sample_ok_env sample_db "Capital of Italy?" "Rome."
       (storeQA sample_lib sample_ok_env sample_db "Capital of France?"
          "Paris." sample_world).2).2
    sample_db "Capital of France?"
  = Some (encode_QA sample_lib (mkQA "Capital of France?" "Paris.")).
Proof.
  refine (proj1 (storeQA_two_questions sample_lib sample_ok_env sample_db
                   "Capital of France?" "Paris." "Capital of Italy?" "Rome."
                   sample_world _ _ _)).
  - discriminate.
  - vm_compute. reflexivity.
  - vm_compute. reflexivity.
Defined.

(** ** [getHomeDir] and [getConfigDir] *)

(** X16: [getConfigDir] returns exactly when the home directory is known and
    [~/.gogpt] can be made, and then returns that path, having made the
    directory; otherwise it ends the process with status 1 after a log
    line.  It never panics and touches neither the store nor the
    network. *)
Theorem getConfigDir_result lib env w :
  let r := getConfigDir lib env w in
  (forall dir,
     r.1 = Ret dir <->
     exists home,
       UserHomeDir env = Ok home /\ dir = filepath_Join lib home ".gogpt" /\
       MkdirAll env dir = None) /\
  (forall dir, r.1 = Ret dir -> w_trace r.2 = w_trace w ++ [EvMkdirAll dir]) /\
  (forall code,
     r.1 = Exit code ->
     code = 1 /\ exists line, last (w_trace r.2) = Some (EvLog log_std line)) /\
  (forall msg, r.1 <> Panic msg) /\
  w_files r.2 = w_files w /\ w_txs r.2 = w_txs w /\
  requests (w_trace r.2) = requests (w_trace w) /\
  store_events (w_trace r.2) = store_events (w_trace w).
Proof.
  cbn zeta. rewrite getConfigDir_run.
  destruct (UserHomeDir env) as [home|err] eqn:Hh.
  - cbn zeta. destruct (MkdirAll env _) as [err|] eqn:Hm; cbn [fst snd].
    + split; [|split; [|split; [|split]]]; try discriminate.
      * intros dir. split; [discriminate|].
        intros (home' & [= <-] & -> & Hm'). congruence.
      * intros code [= <-]. split; [reflexivity|]. eexists.
        unfold logged. cbn [w_trace].
        change [EvMkdirAll ?d; ?l] with ([EvMkdirAll d] ++ [l]).
        rewrite app_assoc. apply last_snoc.
      * cbn. rewrite requests_app, store_events_app. cbn.
        rewrite !app_nil_r. auto.
    + split; [|split; [|split; [|split]]]; try discriminate.
      * intros dir. split.
        -- intros [= <-]. eauto.
        -- intros (home' & [= <-] & -> & _). reflexivity.
      * intros dir [= <-]. reflexivity.
      * cbn. rewrite requests_app, store_events_app. cbn.
        rewrite !app_nil_r. auto.
  - cbn [fst snd]. split; [|split; [|split; [|split]]]; try discriminate.
    + intros dir. split; [discriminate|]. intros (home' & ? & _). discriminate.
    + intros code [= <-]. split; [reflexivity|]. eexists.
      unfold logged. cbn [w_trace]. apply last_snoc.
    + cbn. rewrite requests_app, store_events_app. cbn.
      rewrite !app_nil_r. auto.
Qed.

(** ** Witnesses of the general facts on the help gate and on success *)

Lemma help_gate_prints_defaults_witness :
  run sample_lib sample_bare_env ∅
  = (Exit 0, mkWorld ∅ 0%nat [EvPrintDefaults]).
Proof.
  apply (help_gate_prints_defaults sample_lib sample_bare_env ∅).
  reflexivity.
Defined.

Lemma empty_question_no_put_witness :
  puts (w_trace (run sample_lib sample_debug_env ∅).2) = [].
Proof.
  apply (empty_question_no_put sample_lib sample_debug_env ∅).
  reflexivity.
Defined.


(** ** The answer [getAnswer] returns *)

(** X17: the answer.  When the endpoint answers with at least one choice, what
    [getAnswer] returns is the content of the first choice with a prefix
    and a suffix taken off that are white space only; the answer itself
    neither begins nor ends with white space, so trimming it again changes
    nothing. *)
Theorem answer_is_trimmed_content lib env k q ep er txt w c rest :
  answers_choices lib env (completionRequest lib k q ep er txt) (c :: rest) ->
  exists answer pre post,
    (getAnswer lib env k q ep er txt w).1 = Ret (Ok answer) /\
    Content (Message_ c) = pre +:+ answer +:+ post /\
    all_space pre /\ all_space post /\
    strip_rune space_runes answer = None /\
    strip_rune (String.rev <$> space_runes) (String.rev answer) = None /\
    TrimSpace answer = answer.
Proof.
  intros Hans.
  destruct (TrimSpace_spec (Content (Message_ c)))
    as (pre & post & Hs & Hpre & Hpost & Hl & Hr).
  exists (TrimSpace (Content (Message_ c))), pre, post.
  split; [apply (getAnswer_choices _ _ _ _ _ _ _ _ _ Hans)|].
  split; [exact Hs|]. split; [exact Hpre|]. split; [exact Hpost|].
  split; [exact Hl|]. split; [exact Hr|]. apply TrimSpace_idempotent.
Qed.

Lemma answer_is_trimmed_content_witness :
  exists answer pre post,
    (getAnswer sample_lib sample_ok_env "sk-key" "Capital of France?" "" ""
       "" (init_world ∅)).1 = Ret (Ok answer) /\
    "  Paris. " = pre +:+ answer +:+ post /\
    all_space pre /\ all_space post /\
    strip_rune space_runes answer = None /\
    strip_rune (String.rev <$> space_runes) (String.rev answer) = None /\
    TrimSpace answer = answer.
Proof.
  apply (answer_is_trimmed_content sample_lib sample_ok_env "sk-key"
           "Capital of France?" "" "" "" (init_world ∅)
           (mkChoice (mkMessage "assistant" "  Paris. ") "") []).
  exists (mkResponse 200 "200 OK" (Ok (response_json "  Paris. "))),
    (response_json "  Paris. "),
    (mkChatCompletionResponse "" "" ""
       [mkChoice (mkMessage "assistant" "  Paris. ") ""]).
  split; [reflexivity|]. split; [reflexivity|]. split; [reflexivity|].
  split; [vm_compute; reflexivity|reflexivity].
Defined.

(** ** The end of a run, in every version *)

Section Finish.

Variable lib : Lib.
Variable env : Env.
Variable ask : M (result string).
Variable question : string.
Variable req : Request.

(** [ask] sends [req], does nothing else, and does not exit. *)
Hypothesis ask_world : forall w, (ask w).2 = logged w [EvDo req].
Hypothesis ask_no_exit : forall w code, (ask w).1 <> Exit code.

Lemma finish_requests db w :
  requests (w_trace (defer (DB_Close db) (finish lib env ask question db) w).2)
  = requests (w_trace w) ++ [req].
Proof.
  rewrite (finish_run lib env ask question db req w ask_world). cbn zeta.
  destruct (ask w).1 as [[answer|err]|code|msg].
  2-4: cbn; trace_obs; reflexivity.
  pose proof (storeQA_requests lib env db question answer
                (logged w [EvDo req])) as Hq.
  destruct (storeQA _ _ _ _ _ _) as [[[err|]|code|msg] w2];
    cbn in Hq |- *; trace_obs; rewrite ?Hq; trace_obs; reflexivity.
Qed.

Lemma with_store_requests path w :
  requests (w_trace (with_store env path (finish lib env ask question) w).2)
  = requests (w_trace w)
    ++ (if store_opens env path (w_txs w) then [req] else []).
Proof.
  rewrite with_store_run. unfold store_opens.
  destruct (Open env path); [cbn; trace_obs; reflexivity|].
  destruct (Commit env (w_txs w)); [cbn; trace_obs; reflexivity|].
  rewrite finish_requests, requests_opened. reflexivity.
Qed.




End Finish.

(** ** The second version: the whole run *)

Lemma flag_NFlag_three_flags env :
  flag_NFlag (commandLine (three_flags env))
  = Part001.flag_NFlag (commandLine env).
Proof.
  unfold flag_NFlag, Part001.flag_NFlag, three_flags. cbn.
  rewrite !Nat.add_0_r. reflexivity.
Qed.

Lemma part001_gate_three_flags env :
  help_gate (three_flags env) = part001_gate env.
Proof.
  unfold help_gate, part001_gate. rewrite flag_NFlag_three_flags.
  reflexivity.
Qed.

(** Up to the opening of the store, the second version is [main.go] on a
    command line without the three later flags. *)
Lemma part001_main_split lib env w :
  Part001.main lib env w
  = (x <- preamble lib (three_flags env) ;;
     configDir <- getConfigDir lib env ;;
     with_store env (configDir +:+ "/qa.db")
       (finish lib env (Part001.getAnswer lib env (APIKey x.1) (question env))
          (question env))) w.
Proof.
  unfold Part001.main, preamble. unfold getConfigDir at 1 3.
  unfold getHomeDir, os_Stat, ioutil_ReadFile, os_MkdirAll, os_UserHomeDir,
    Logger_Printf, log_Fatalf, flag_PrintDefaults, when, emit, os_Exit, bind,
    ret.
  rewrite flag_NFlag_three_flags. unfold showHelp, file_to_analyze.
  cbn [three_flags commandLine arg_file_to_analyze from_option id String.eqb
       negb arg_help UserHomeDir MkdirAll Stat ReadFile].
  repeat (first [reflexivity | destruct_match; cbn [fst snd]]).
Qed.

Lemma part001_main_run lib env w :
  Part001.main lib env w =
  if part001_gate env then (Exit 0, logged w [EvPrintDefaults])
  else
    match UserHomeDir env with
    | Err err =>
        (Exit 1,
         logged w [EvLog log_std
                     ("Error getting home directory: " +:+ Error_ err)])
    | Ok home =>
        let dir := filepath_Join lib home ".gogpt" in
        match MkdirAll env dir with
        | Some err =>
            (Exit 1,
             logged w [EvMkdirAll dir;
                       EvLog log_std
                         ("Error creating config directory: "
                          +:+ Error_ err)])
        | None =>
            if os_IsNotExist (Stat env (configFile lib home)) then
              (Exit 1,
               logged w [EvMkdirAll dir; EvStat (configFile lib home);
                         EvLog logError
                           ("Config file " +:+ configFile lib home
                            +:+ " does not exist")])
            else
              with_store env (dbFile lib home)
                (finish lib env
                   (Part001.getAnswer lib env
                      (APIKey (config_decoded lib env home).1) (question env))
                   (question env))
                (logged (logged w (config_events lib env home))
                   [EvMkdirAll dir])
        end
    end.
Proof.
  rewrite part001_main_split, bind_run, preamble_run,
    part001_gate_three_flags.
  destruct (part001_gate env); [reflexivity|].
  change (UserHomeDir (three_flags env)) with (UserHomeDir env).
  destruct (UserHomeDir env) as [home|err] eqn:Hh; [|reflexivity].
  cbn zeta.
  change (MkdirAll (three_flags env)) with (MkdirAll env).
  destruct (MkdirAll env _) as [err|] eqn:Hm; [reflexivity|].
  change (Stat (three_flags env)) with (Stat env).
  destruct (os_IsNotExist (Stat env (configFile lib home))); [reflexivity|].
  change (String.eqb (file_to_analyze (three_flags env)) "") with true.
  cbn match. rewrite bind_run, getConfigDir_run, Hh. cbn zeta. rewrite Hm.
  reflexivity.
Qed.


(** X18: the request a run of the second version sends: at most one, and one
    exactly when [part001_main_request] says so. *)
Theorem part001_main_sends_request lib env files :
  requests (w_trace (Part001.main lib env (init_world files)).2)
  = option_list (part001_main_request lib env).
Proof.
  rewrite part001_main_run. unfold part001_main_request.
  destruct (part001_gate env); [reflexivity|].
  destruct (UserHomeDir env) as [home|err]; [|reflexivity].
  cbn zeta. destruct (MkdirAll env _) as [err|]; [reflexivity|].
  destruct (os_IsNotExist (Stat env (configFile lib home))); [reflexivity|].
  rewrite (with_store_requests lib env _ _ _
             (part001_getAnswer_world lib env _ _)).
  rewrite !requests_logged, requests_config_events.
  cbn [logged w_txs init_world].
  destruct (store_opens env (dbFile lib home) 0); reflexivity.
Qed.



(** X20: what [getAnswer] of the second version does: one request, and a
    result that depends only on the reply to it. *)
Theorem part001_getAnswer_spec lib env apiKey q w :
  let r := Part001.getAnswer lib env apiKey q w in
  let req := part001_request lib apiKey q in
  r.2 = logged w [EvDo req] /\
  (forall err, Do env req = Err err -> r.1 = Ret (Err err)) /\
  (forall resp, Do env req = Ok resp -> StatusCode resp <> http_StatusOK ->
     r.1 = Ret (Err (fmt_Errorf ("OpenAI API request failed with status: "
                                 +:+ Status resp)))) /\
  (forall c rest, answers_choices lib env req (c :: rest) ->
     r.1 = Ret (Ok (TrimSpace (Content (Message_ c))))) /\
  (answers_choices lib env req [] ->
     r.1 = Panic "runtime error: index out of range [0] with length 0").
Proof.
  cbn zeta. split; [apply part001_getAnswer_world|].
  split; [|split; [|split]].
  - intros err H. unfold part001_request in H.
    unfold Part001.getAnswer, json_Marshal_ChatCompletionRequest,
      http_NewRequest, Header_Add, Client_Do, bind, ret, emit. cbn.
    rewrite H. reflexivity.
  - intros resp H Hs. unfold part001_request in H.
    unfold Part001.getAnswer, json_Marshal_ChatCompletionRequest,
      http_NewRequest, Header_Add, Client_Do, bind, ret, emit. cbn.
    rewrite H. cbn. apply Z.eqb_neq in Hs. rewrite Hs. reflexivity.
  - intros c rest H.
    apply (part001_getAnswer_choices lib env apiKey q w (c :: rest) H).
  - intros H. apply (part001_getAnswer_choices lib env apiKey q w [] H).
Qed.

(** ** The first version: the whole run *)

Lemma part000_main_run lib codec env Args w :
  Part000.main lib codec env Args w =
  if (length Args <? 2)%nat then
    (Ret tt,
     logged w [EvPrint ("Usage: go run main.go " +:+ dq +:+ "Your question"
                        +:+ dq +:+ nl)])
  else
    let question := String.concat " " (tail Args) in
    match (ReadFile env apiKeyFile).2 with
    | Some err =>
        (Exit 1,
         logged w [EvReadFile apiKeyFile;
                   EvLog log_std
                     ("Error reading API key file: " +:+ Error_ err)])
    | None =>
        with_store env "qa.db"
          (finish lib env
             (Part000.getAnswer codec env (ReadFile env apiKeyFile).1
                question)
             question)
          (logged w [EvReadFile apiKeyFile])
    end.
Proof.
  unfold Part000.main. destruct (length Args <? 2)%nat; [reflexivity|].
  cbn zeta. unfold ioutil_ReadFile, log_Fatalf, emit, os_Exit, bind, ret,
    logged.
  cbn [fst snd]. destruct (ReadFile env apiKeyFile).2; [|reflexivity].
  cbn. rewrite <- app_assoc. reflexivity.
Qed.


(** X21: the request a run of the first version sends: at most one, and one
    exactly when [part000_main_request] says so.  The key is the content of
    the key file as read, and the question is the arguments joined by
    spaces. *)
Theorem part000_main_sends_request lib codec env Args files :
  requests (w_trace (Part000.main lib codec env Args (init_world files)).2)
  = option_list (part000_main_request codec env Args).
Proof.
  rewrite part000_main_run. unfold part000_main_request.
  destruct (length Args <? 2)%nat; [reflexivity|].
  cbn zeta. destruct (ReadFile env apiKeyFile).2; [reflexivity|].
  rewrite (with_store_requests lib env _ _ _
             (part000_getAnswer_world codec env _ _)).
  cbn [logged w_txs init_world].
  destruct (store_opens env "qa.db" 0); reflexivity.
Qed.

(** X22: in the first version a key file that cannot be read stops the run:
    the process exits with status 1 without opening the store or sending
    anything. *)
Theorem part000_key_file_errors_are_fatal lib codec env Args files err :
  (2 <= length Args)%nat ->
  (ReadFile env apiKeyFile).2 = Some err ->
  let r := Part000.main lib codec env Args (init_world files) in
  exit_status r.1 = 1 /\
  requests (w_trace r.2) = [] /\
  store_events (w_trace r.2) = [] /\
  w_files r.2 = files /\
  last (w_trace r.2)
  = Some (EvLog log_std ("Error reading API key file: " +:+ Error_ err)).
Proof.
  intros Hn Hk. cbn zeta. rewrite part000_main_run.
  apply Nat.ltb_ge in Hn. rewrite Hn. cbn zeta. rewrite Hk.
  repeat split.
Qed.

Lemma part000_key_file_errors_are_fatal_witness :
  let r := Part000.main sample_lib sample_codec sample_no_key_env
             ["gogpt"; "Capital"; "of"; "France?"] (init_world ∅) in
  exit_status r.1 = 1 /\
  requests (w_trace r.2) = [] /\
  store_events (w_trace r.2) = [] /\
  w_files r.2 = ∅ /\
  last (w_trace r.2)
  = Some (EvLog log_std
            ("Error reading API key file: " +:+ Error_ ENOENT)).
Proof.
  apply (part000_key_file_errors_are_fatal sample_lib sample_codec
           sample_no_key_env ["gogpt"; "Capital"; "of"; "France?"] ∅ ENOENT).
  - cbn. lia.
  - vm_compute. reflexivity.
Defined.



(** X24: what [getAnswer] of the first version does: one request to the
    completion endpoint, and a result that depends only on the reply to
    it. *)
Theorem part000_getAnswer_spec codec env apiKey q w :
  let r := Part000.getAnswer codec env apiKey q w in
  let req := part000_request codec apiKey q in
  r.2 = logged w [EvDo req] /\
  (forall err, Do env req = Err err -> r.1 = Ret (Err err)) /\
  (forall resp, Do env req = Ok resp -> StatusCode resp <> http_StatusOK ->
     r.1 = Ret (Err (fmt_Errorf ("OpenAI API request failed with status: "
                                 +:+ Status resp)))) /\
  (forall c rest, part000_answers_choices codec env req (c :: rest) ->
     r.1 = Ret (Ok (TrimSpace (Part000.Text c)))) /\
  (part000_answers_choices codec env req [] ->
     r.1 = Panic "runtime error: index out of range [0] with length 0").
Proof.
  cbn zeta. split; [apply part000_getAnswer_world|].
  split; [|split; [|split]].
  - intros err H. unfold part000_request in H.
    unfold Part000.getAnswer, Part000.json_Marshal_CompletionRequest,
      http_NewRequest, Header_Add, Client_Do, bind, ret, emit. cbn.
    rewrite H. reflexivity.
  - intros resp H Hs. unfold part000_request in H.
    unfold Part000.getAnswer, Part000.json_Marshal_CompletionRequest,
      http_NewRequest, Header_Add, Client_Do, bind, ret, emit. cbn.
    rewrite H. cbn. apply Z.eqb_neq in Hs. rewrite Hs. reflexivity.
  - intros c rest H.
    apply (part000_getAnswer_choices codec env apiKey q w (c :: rest) H).
  - intros H. apply (part000_getAnswer_choices codec env apiKey q w [] H).
Qed.

(** ** The [-debug] flag *)

(** X25: [-debug] changes nothing past the help gate: the debug logger it
    selects is never written to, so two runs that differ only in that flag
    and both pass the gate end alike and do the same things in the same
    order. *)
Theorem debug_flag_is_inert lib env d files :
  help_gate env = false -> help_gate (set_debug d env) = false ->
  run lib (set_debug d env) files = run lib env files.
Proof.
  unfold help_gate, run, main. intros H1 H2.
  unfold when, bind at 1. rewrite H2.
  unfold when, bind at 1. rewrite H1.
  reflexivity.
Qed.

Lemma debug_flag_is_inert_witness :
  run sample_lib (set_debug (Some true) sample_ok_env) ∅
  = run sample_lib sample_ok_env ∅.
Proof.
  apply (debug_flag_is_inert sample_lib sample_ok_env (Some true) ∅);
    vm_compute; reflexivity.
Defined.

(** X26: in the second version too [-debug] changes nothing past the help
    gate: two runs that differ only in that flag and both pass the gate are
    the same run. *)
Theorem part001_debug_flag_is_inert lib env d w :
  part001_gate env = false -> part001_gate (set_debug d env) = false ->
  Part001.main lib (set_debug d env) w = Part001.main lib env w.
Proof.
  unfold part001_gate, Part001.main. intros H1 H2.
  unfold when, bind at 1. rewrite H2.
  unfold when, bind at 1. rewrite H1.
  reflexivity.
Qed.

Lemma part001_debug_flag_is_inert_witness :
  Part001.main sample_lib (set_debug (Some true) sample_ok_env)
    (init_world ∅)
  = Part001.main sample_lib sample_ok_env (init_world ∅).
Proof.
  apply (part001_debug_flag_is_inert sample_lib sample_ok_env (Some true)
           (init_world ∅));
    vm_compute; reflexivity.
Defined.
